(** * Expense Insight Tracker Pro: filter and aggregation engine

    A shallow embedding of the pure array transforms and state updates of
    the expense tracker (pages/Index.tsx, components/BudgetTracker.tsx,
    components/ChartsSection.tsx, utils/expenseUtils.ts, types/expense.ts),
    with the properties its specification states about them.

    Modelling conventions.
    - A JavaScript [number] is read in two ways.  Where the code only
      compares amounts and adds them in one fixed order, it is an exact
      rational ([Q]), and sums are stated up to [Qeq] ([==]).  Where the
      code divides, or where a statement compares sums taken in different
      orders (the budget status, the category totals), it is an IEEE 754
      binary64 value: module [Double] embeds that code over primitive
      floats, with rounding, [NaN] and the infinities.
    - A [Date] is its time value: milliseconds since the epoch, a [Z].
      Invalid dates are outside the model.
    - The date-fns helpers are not part of the repository; module [DateFns]
      models them as documented, for a local time zone with a constant
      offset (every calendar day lasts 86 400 000 ms).
    - React state setters are modelled by explicit state passing: a handler
      takes the current collection and returns the next one, together with
      the notices (toasts) it raised. *)

From Stdlib Require Import ZArith QArith Qminmax Qpower Bool List String Ascii Lia Lqa.
From Stdlib Require Import DecimalString.
From Stdlib Require Floats.
From Stdlib Require Import Permutation Sorted.
From Equations Require Import Equations.
Import ListNotations.

(* ------------------------------------------------------------------ *)
(** ** JavaScript numbers and array helpers *)
(* ------------------------------------------------------------------ *)

Module JS.

Definition number := Q.

(** [a >= b], [a <= b], [a > b] on numbers. *)
Definition ge (a b : number) : bool := Qle_bool b a.
Definition le (a b : number) : bool := Qle_bool a b.
Definition gt (a b : number) : bool := negb (Qle_bool a b).

(** [!x] for an optional number: [undefined] and [0] are falsy. *)
Definition not (x : option number) : bool :=
  match x with
  | None => true
  | Some v => Qeq_bool v 0
  end.

(** [a >= x] and [a <= x] where [x] may be [undefined]; a comparison
    with [undefined] is [false]. *)
Definition ge_opt (a : number) (x : option number) : bool :=
  match x with None => false | Some v => ge a v end.
Definition le_opt (a : number) (x : option number) : bool :=
  match x with None => false | Some v => le a v end.

(** [xs.includes(s)] on an array of strings. *)
Definition includes (xs : list string) (s : string) : bool :=
  existsb (String.eqb s) xs.

(** [xs.find(p)]. *)
Definition find {A} (p : A -> bool) (xs : list A) : option A := List.find p xs.

(** [xs.reduce((sum, x) => sum + f(x), 0)]. *)
Definition reduce_sum {A} (f : A -> number) (xs : list A) : number :=
  fold_left (fun sum x => sum + f x)%Q xs 0%Q.

(** [n.toString()] for an integral number. *)
Definition toString (n : Z) : string :=
  NilZero.string_of_int (Z.to_int n).

End JS.

(* ------------------------------------------------------------------ *)
(** ** Dates, and the date-fns functions the program calls *)
(* ------------------------------------------------------------------ *)

Definition Date := Z.

(** [new Date(d)] copies the time value. *)
Definition newDate (d : Date) : Date := d.

Module DateFns.
Local Open Scope Z_scope.

Definition DAY : Z := 86400000.

(** Day number (days since 1970-01-01) of a time value. *)
Definition dayNumber (d : Date) : Z := d / DAY.

(** Proleptic Gregorian calendar: day number of year/month/day, and back.
    Months are 1..12 here. *)
Definition days_from_civil (y m d : Z) : Z :=
  let y' := if m <=? 2 then y - 1 else y in
  let era := y' / 400 in
  let yoe := y' - era * 400 in
  let mp := if 2 <? m then m - 3 else m + 9 in
  let doy := (153 * mp + 2) / 5 + d - 1 in
  let doe := yoe * 365 + yoe / 4 - yoe / 100 + doy in
  era * 146097 + doe - 719468.

Definition civil_from_days (z : Z) : Z * Z * Z :=
  let z' := z + 719468 in
  let era := z' / 146097 in
  let doe := z' - era * 146097 in
  let yoe := (doe - doe / 1460 + doe / 36524 - doe / 146096) / 365 in
  let doy := doe - (365 * yoe + yoe / 4 - yoe / 100) in
  let mp := (5 * doy + 2) / 153 in
  let d := doy - (153 * mp + 2) / 5 + 1 in
  let m := if mp <? 10 then mp + 3 else mp - 9 in
  let y := yoe + era * 400 in
  ((if m <=? 2 then y + 1 else y), m, d).

(** [new Date(y, m - 1, d)]: local midnight of a calendar day. *)
Definition mkDate (y m d : Z) : Date := days_from_civil y m d * DAY.

Definition startOfDay (d : Date) : Date := dayNumber d * DAY.

(** [getDay()]: 0 is Sunday; 1970-01-01 was a Thursday. *)
Definition getDay (d : Date) : Z := (dayNumber d + 4) mod 7.

(** Weeks start on Sunday (the date-fns default). *)
Definition startOfWeek (d : Date) : Date := (dayNumber d - getDay d) * DAY.
Definition endOfWeek (d : Date) : Date :=
  (dayNumber d + (6 - getDay d)) * DAY + (DAY - 1).

Definition startOfMonth (d : Date) : Date :=
  let '(y, m, _) := civil_from_days (dayNumber d) in
  mkDate y m 1.
Definition endOfMonth (d : Date) : Date :=
  let '(y, m, _) := civil_from_days (dayNumber d) in
  (if m =? 12 then mkDate (y + 1) 1 1 else mkDate y (m + 1) 1) - 1.

(** The loop of [eachDayOfInterval]: push the current day while it is not
    after the end, then move to the next midnight. *)
Equations? eachDayLoop (currentDate endTime : Z) : list Date
  by wf (Z.to_nat (endTime - currentDate + 1)) lt :=
  eachDayLoop currentDate endTime with Z_le_dec currentDate endTime => {
    | left _ => currentDate :: eachDayLoop (currentDate + DAY) endTime
    | right _ => []
  }.
Proof. unfold DAY. lia. Qed.

(** [eachDayOfInterval({ start, end })] for [start <= end]: the loop run
    from the midnight of [start].  (The library rejects or reverses an
    interval whose start is after its end; the properties below assume
    [start <= end].) *)
Definition eachDayOfInterval (start end_ : Date) : list Date :=
  eachDayLoop (startOfDay start) end_.

Definition monthAbbrev (m : Z) : string :=
  nth (Z.to_nat (m - 1))
    ["Jan"; "Feb"; "Mar"; "Apr"; "May"; "Jun";
     "Jul"; "Aug"; "Sep"; "Oct"; "Nov"; "Dec"]%string EmptyString.

Definition twoDigits (n : Z) : string :=
  String.append (if n <? 10 then "0"%string else EmptyString) (JS.toString n).

(** [format(d, 'MMM dd')]. *)
Definition format_MMM_dd (d : Date) : string :=
  let '(_, m, dd) := civil_from_days (dayNumber d) in
  String.append (monthAbbrev m) (String.append " "%string (twoDigits dd)).

End DateFns.

(* ------------------------------------------------------------------ *)
(** ** Domain model (types/expense.ts) *)
(* ------------------------------------------------------------------ *)

Inductive ExpenseType := income | expense.

(** The filter's ['all' | 'income' | 'expense']. *)
Inductive FilterType := all | only (t : ExpenseType).

Inductive Period := weekly | monthly.

Definition ExpenseType_eqb (a b : ExpenseType) : bool :=
  match a, b with
  | income, income | expense, expense => true
  | _, _ => false
  end.

Definition FilterType_eqb (a b : FilterType) : bool :=
  match a, b with
  | all, all => true
  | only x, only y => ExpenseType_eqb x y
  | _, _ => false
  end.

Definition Period_eqb (a b : Period) : bool :=
  match a, b with
  | weekly, weekly | monthly, monthly => true
  | _, _ => false
  end.

Module Expense.
Record t := mk {
  id : string;
  amount : JS.number;
  categoryId : string;
  description : string;
  date : Date;
  type : ExpenseType;
  createdAt : Date
}.
End Expense.

Module Category.
Record t := mk {
  id : string;
  name : string;
  color : string;
  icon : string
}.
End Category.

Module Budget.
Record t := mk {
  id : string;
  categoryId : string;
  amount : JS.number;
  period : Period;
  createdAt : Date
}.
End Budget.

Module FilterOptions.
Record t := mk {
  startDate : Date;
  endDate : Date;
  categories : list string;
  minAmount : option JS.number;
  maxAmount : option JS.number;
  type : FilterType
}.
End FilterOptions.

(** [Omit<Expense, 'id' | 'createdAt'>]: what the expense form submits. *)
Module ExpenseData.
Record t := mk {
  amount : JS.number;
  categoryId : string;
  description : string;
  date : Date;
  type : ExpenseType
}.
End ExpenseData.

(* ------------------------------------------------------------------ *)
(** ** Filter engine (pages/Index.tsx) *)
(* ------------------------------------------------------------------ *)

(** The four conjuncts computed by the [filter] callback. *)
Definition dateInRange (filters : FilterOptions.t) (e : Expense.t) : bool :=
  let expenseDate := newDate (Expense.date e) in
  (FilterOptions.startDate filters <=? expenseDate)%Z
  && (expenseDate <=? FilterOptions.endDate filters)%Z.

Definition categoryMatch (filters : FilterOptions.t) (e : Expense.t) : bool :=
  (List.length (FilterOptions.categories filters) =? 0)%nat
  || JS.includes (FilterOptions.categories filters) (Expense.categoryId e).

Definition amountMatch (filters : FilterOptions.t) (e : Expense.t) : bool :=
  (JS.not (FilterOptions.minAmount filters)
   || JS.ge_opt (Expense.amount e) (FilterOptions.minAmount filters))
  && (JS.not (FilterOptions.maxAmount filters)
      || JS.le_opt (Expense.amount e) (FilterOptions.maxAmount filters)).

Definition typeMatch (filters : FilterOptions.t) (e : Expense.t) : bool :=
  FilterType_eqb (FilterOptions.type filters) all
  || FilterType_eqb (only (Expense.type e)) (FilterOptions.type filters).

Definition filterPredicate (filters : FilterOptions.t) (e : Expense.t) : bool :=
  dateInRange filters e && categoryMatch filters e
  && amountMatch filters e && typeMatch filters e.

Definition filteredExpenses (expenses : list Expense.t) (filters : FilterOptions.t)
  : list Expense.t :=
  filter (filterPredicate filters) expenses.

(** [{ ...prev, categories }]: the update the filter controls perform on
    the category set (components/FilterControls.tsx). *)
Definition withCategories (prev : FilterOptions.t) (categories : list string)
  : FilterOptions.t :=
  FilterOptions.mk (FilterOptions.startDate prev) (FilterOptions.endDate prev)
    categories (FilterOptions.minAmount prev) (FilterOptions.maxAmount prev)
    (FilterOptions.type prev).

Definition clearCategoryFilters (prev : FilterOptions.t) : FilterOptions.t :=
  withCategories prev [].

(* ------------------------------------------------------------------ *)
(** ** Category totals (utils/expenseUtils.ts) *)
(* ------------------------------------------------------------------ *)

Module CategoryTotal.
Record t := mk {
  category : Category.t;
  total : JS.number;
  count : nat
}.
End CategoryTotal.

(** The optional [type] argument is [None] when the caller omits it. *)
Definition calculateCategoryTotals (expenses : list Expense.t)
    (categories : list Category.t) (type : option ExpenseType)
  : list CategoryTotal.t :=
  filter (fun item => JS.gt (CategoryTotal.total item) 0)
    (map (fun category =>
       let categoryExpenses :=
         filter (fun e =>
           String.eqb (Expense.categoryId e) (Category.id category)
           && match type with
              | Some t => ExpenseType_eqb (Expense.type e) t
              | None => true
              end) expenses in
       let total := JS.reduce_sum Expense.amount categoryExpenses in
       CategoryTotal.mk category total (List.length categoryExpenses))
     categories).

(* ------------------------------------------------------------------ *)
(** ** Daily and cumulative series (components/ChartsSection.tsx) *)
(* ------------------------------------------------------------------ *)

Module DailyPoint.
Record t := mk {
  date : string;
  expenses : JS.number;
  income : JS.number;
  net : JS.number
}.
End DailyPoint.

Module CumulativePoint.
Record t := mk {
  date : string;
  cumulativeIncome : JS.number;
  cumulativeExpenses : JS.number;
  balance : JS.number
}.
End CumulativePoint.

(** The body of the [days.map] callback of [getDailyData]. *)
Definition dailyPoint (expenses : list Expense.t) (day : Date) : DailyPoint.t :=
  let dayExpenses :=
    filter (fun e =>
      (DateFns.startOfDay (newDate (Expense.date e)) =? DateFns.startOfDay day)%Z)
      expenses in
  let expenseAmount :=
    JS.reduce_sum Expense.amount
      (filter (fun e => ExpenseType_eqb (Expense.type e) expense) dayExpenses) in
  let incomeAmount :=
    JS.reduce_sum Expense.amount
      (filter (fun e => ExpenseType_eqb (Expense.type e) income) dayExpenses) in
  DailyPoint.mk (DateFns.format_MMM_dd day) expenseAmount incomeAmount
    (incomeAmount - expenseAmount).

Definition getDailyData (expenses : list Expense.t) (dateRange : FilterOptions.t)
  : list DailyPoint.t :=
  let days :=
    DateFns.eachDayOfInterval (FilterOptions.startDate dateRange)
      (FilterOptions.endDate dateRange) in
  map (dailyPoint expenses) days.

(** [getCumulativeData] maps over the daily series while updating the two
    closure variables [cumulativeIncome] and [cumulativeExpenses]; here the
    two accumulators are threaded through the traversal. *)
Fixpoint cumulativeFrom (cumulativeIncome cumulativeExpenses : JS.number)
    (dailyData : list DailyPoint.t) : list CumulativePoint.t :=
  match dailyData with
  | [] => []
  | day :: rest =>
      let cumulativeIncome := (cumulativeIncome + DailyPoint.income day)%Q in
      let cumulativeExpenses := (cumulativeExpenses + DailyPoint.expenses day)%Q in
      CumulativePoint.mk (DailyPoint.date day) cumulativeIncome cumulativeExpenses
        (cumulativeIncome - cumulativeExpenses)
      :: cumulativeFrom cumulativeIncome cumulativeExpenses rest
  end.

Definition getCumulativeData (dailyData : list DailyPoint.t) : list CumulativePoint.t :=
  cumulativeFrom 0 0 dailyData.

(* ------------------------------------------------------------------ *)
(** ** Notices *)
(* ------------------------------------------------------------------ *)

Module Toast.
Record t := mk {
  title : string;
  description : string;
  variant : option string
}.
End Toast.

(** [categories.find(cat => cat.id === categoryId)?.name || 'Unknown']:
    an empty name is falsy and also yields the fallback. *)
Definition getCategoryName (categories : list Category.t) (categoryId : string) : string :=
  match JS.find (fun cat => String.eqb (Category.id cat) categoryId) categories with
  | Some cat => if String.eqb (Category.name cat) EmptyString then "Unknown" else Category.name cat
  | None => "Unknown"
  end.

(* ------------------------------------------------------------------ *)
(** ** Budget tracking (components/BudgetTracker.tsx) *)
(* ------------------------------------------------------------------ *)

Definition periodName (p : Period) : string :=
  match p with weekly => "weekly" | monthly => "monthly" end.

(** [period.charAt(0).toUpperCase() + period.slice(1)]. *)
Definition periodTitle (p : Period) : string :=
  match p with weekly => "Weekly" | monthly => "Monthly" end.

(** The active window of a budget at wall-clock time [now]. *)
Definition budgetWindow (now : Date) (budget : Budget.t) : Date * Date :=
  if Period_eqb (Budget.period budget) weekly
  then (DateFns.startOfWeek now, DateFns.endOfWeek now)
  else (DateFns.startOfMonth now, DateFns.endOfMonth now).

(** [getSpentAmount], with [new Date()] read as the argument [now] and the
    component's [expenses] prop passed explicitly. *)
Definition getSpentAmount (now : Date) (expenses : list Expense.t) (budget : Budget.t)
  : JS.number :=
  let '(startDate, endDate) := budgetWindow now budget in
  JS.reduce_sum Expense.amount
    (filter (fun e =>
       ExpenseType_eqb (Expense.type e) expense
       && String.eqb (Expense.categoryId e) (Budget.categoryId budget)
       && (startDate <=? newDate (Expense.date e))%Z
       && (newDate (Expense.date e) <=? endDate)%Z)
     expenses).

Module BudgetStatus.
Record t := mk {
  status : string;
  color : string
}.
End BudgetStatus.

(** pages/Index.tsx renders [<BudgetTracker expenses={filteredExpenses} />]:
    the tracker's [expenses] prop is the filtered list. *)
Definition displayedSpentAmount (now : Date) (expenses : list Expense.t)
    (filters : FilterOptions.t) (budget : Budget.t) : JS.number :=
  getSpentAmount now (filteredExpenses expenses filters) budget.

(* ------------------------------------------------------------------ *)
(** ** The arithmetic of the budget cards and category totals on IEEE
    doubles (components/BudgetTracker.tsx, utils/expenseUtils.ts) *)
(* ------------------------------------------------------------------ *)

(** A JavaScript [number] as a binary64 value.  The records below are the
    ones of the domain model with their [amount] field a double; the
    functions are the source functions over them. *)
Module Double.
Import PrimFloat SpecFloat FloatOps.

Abbreviation number := float.

(** [a >= b], [a <= b], [a > b]: false as soon as an operand is [NaN]. *)
Definition ge (a b : number) : bool := (b <=? a)%float.
Definition le (a b : number) : bool := (a <=? b)%float.
Definition gt (a b : number) : bool := (b <? a)%float.

(** [xs.reduce((sum, x) => sum + f(x), 0)]. *)
Definition reduce_sum {A} (f : A -> number) (xs : list A) : number :=
  fold_left (fun sum x => (sum + f x)%float) xs 0%float.

(** [Math.min(x, y)]: [NaN] if an argument is [NaN]; [-0] is below [+0]. *)
Definition min (x y : number) : number :=
  if is_nan x || is_nan y then nan
  else if (x <? y)%float then x
  else if (y <? x)%float then y
  else match classify x with
       | FloatClass.NZero => x
       | _ => y
       end.

(** The rational a finite double denotes. *)
Definition valueOf (x : number) : option Q :=
  match Prim2SF x with
  | S754_zero _ => Some 0
  | S754_finite s m e => Some ((if s then -1 else 1) * (Z.pos m # 1) * 2 ^ e)
  | _ => None
  end.


Definition value (x : number) : Q :=
  match valueOf x with Some q => q | None => 0 end.

Module Expense.
Record t := mk {
  id : string;
  amount : number;
  categoryId : string;
  description : string;
  date : Date;
  type : ExpenseType;
  createdAt : Date
}.
End Expense.

Module Budget.
Record t := mk {
  id : string;
  categoryId : string;
  amount : number;
  period : Period;
  createdAt : Date
}.
End Budget.

Definition getSpentAmount (now : Date) (expenses : list Expense.t) (budget : Budget.t)
  : number :=
  let '(startDate, endDate) :=
    if Period_eqb (Budget.period budget) weekly
    then (DateFns.startOfWeek now, DateFns.endOfWeek now)
    else (DateFns.startOfMonth now, DateFns.endOfMonth now) in
  reduce_sum Expense.amount
    (filter (fun e =>
       ExpenseType_eqb (Expense.type e) expense
       && String.eqb (Expense.categoryId e) (Budget.categoryId budget)
       && (startDate <=? newDate (Expense.date e))%Z
       && (newDate (Expense.date e) <=? endDate)%Z)
     expenses).

Definition getBudgetStatus (budget : Budget.t) (spent : number) : BudgetStatus.t :=
  let percentage := ((spent / Budget.amount budget) * 100)%float in
  if ge percentage 100%float then BudgetStatus.mk "exceeded" "bg-red-500"
  else if ge percentage 80%float then BudgetStatus.mk "warning" "bg-orange-500"
  else if ge percentage 50%float then BudgetStatus.mk "moderate" "bg-yellow-500"
  else BudgetStatus.mk "good" "bg-green-500".

(** What a budget card shows: the values computed at the top of the
    [budgets.map] callback of the render function. *)
Module BudgetCard.
Record t := mk {
  spent : number;
  remaining : number;
  percentage : number;
  status : string;
  color : string
}.
End BudgetCard.

Definition budgetCardFor (budget : Budget.t) (spent : number) : BudgetCard.t :=
  let remaining := (Budget.amount budget - spent)%float in
  let percentage := min ((spent / Budget.amount budget) * 100)%float 100%float in
  let st := getBudgetStatus budget spent in
  BudgetCard.mk spent remaining percentage
    (BudgetStatus.status st) (BudgetStatus.color st).


Module CategoryTotal.
Record t := mk {
  category : Category.t;
  total : number;
  count : nat
}.
End CategoryTotal.

(** The transactions behind the total of one category. *)
Definition categoryExpenses (expenses : list Expense.t) (type : option ExpenseType)
    (category : Category.t) : list Expense.t :=
  filter (fun e =>
    String.eqb (Expense.categoryId e) (Category.id category)
    && match type with
       | Some t => ExpenseType_eqb (Expense.type e) t
       | None => true
       end) expenses.

Definition calculateCategoryTotals (expenses : list Expense.t)
    (categories : list Category.t) (type : option ExpenseType)
  : list CategoryTotal.t :=
  filter (fun item => gt (CategoryTotal.total item) 0%float)
    (map (fun category =>
       let categoryExpenses := categoryExpenses expenses type category in
       let total := reduce_sum Expense.amount categoryExpenses in
       CategoryTotal.mk category total (List.length categoryExpenses))
     categories).

End Double.

(** *** The budget form *)

Module FormData.
Record t := mk {
  categoryId : string;
  amount : string;
  period : Period
}.
Definition empty : t := mk EmptyString EmptyString monthly.
End FormData.

Module BudgetTracker.
Record State := mk {
  budgets : list Budget.t;
  isFormOpen : bool;
  editingBudget : option Budget.t;
  formData : FormData.t
}.
End BudgetTracker.

Definition destructive : option string := Some "destructive"%string.

(** [s] between double quotes, followed by [rest]. *)
Definition quoted (s rest : string) : string :=
  String (ascii_of_nat 34) (String.append s (String (ascii_of_nat 34) rest)).

Section BudgetForm.

(** The global [parseFloat].  The amount field is an
    [<input type="number">], whose value is empty or a valid number. *)
Variable parseFloat : string -> JS.number.

(** The [categories] prop, used to name the category in notices. *)
Variable categories : list Category.t.

(** The updater of the edit branch: [prev.map(budget => ...)]. *)
Definition editBudgets (editingBudget : Budget.t) (formData : FormData.t)
    (amount : JS.number) (prev : list Budget.t) : list Budget.t :=
  map (fun budget =>
    if String.eqb (Budget.id budget) (Budget.id editingBudget)
    then Budget.mk (Budget.id budget) (FormData.categoryId formData) amount
           (FormData.period formData) (Budget.createdAt budget)
    else budget) prev.

(** [handleSubmit]; [now] stands for both [Date.now()] and [new Date()].
    An early [return] leaves the whole state as it was. *)
Definition handleSubmit (now : Date) (st : BudgetTracker.State)
  : BudgetTracker.State * list Toast.t :=
  let formData := BudgetTracker.formData st in
  let budgets := BudgetTracker.budgets st in
  if String.eqb (FormData.categoryId formData) EmptyString
     || String.eqb (FormData.amount formData) EmptyString
  then (st, [Toast.mk "Error" "Please fill in all required fields." destructive])
  else
    let amount := parseFloat (FormData.amount formData) in
    if JS.le amount 0
    then (st, [Toast.mk "Error" "Budget amount must be greater than 0." destructive])
    else
      match BudgetTracker.editingBudget st with
      | Some editingBudget =>
          (BudgetTracker.mk (editBudgets editingBudget formData amount budgets)
             false None FormData.empty,
           [Toast.mk "Budget Updated"
              (String.append "Budget for "
                 (quoted (getCategoryName categories (FormData.categoryId formData))
                    " has been updated."))
              None])
      | None =>
          let existingBudget :=
            JS.find (fun budget =>
              String.eqb (Budget.categoryId budget) (FormData.categoryId formData)
              && Period_eqb (Budget.period budget) (FormData.period formData))
              budgets in
          match existingBudget with
          | Some _ =>
              (st, [Toast.mk "Budget Exists"
                      (String.append "A "
                         (String.append (periodName (FormData.period formData))
                            " budget for this category already exists."))
                      destructive])
          | None =>
              let newBudget :=
                Budget.mk (JS.toString now) (FormData.categoryId formData) amount
                  (FormData.period formData) now in
              (BudgetTracker.mk (budgets ++ [newBudget]) false None FormData.empty,
               [Toast.mk "Budget Added"
                  (String.append (periodTitle (FormData.period formData))
                     (String.append " budget for "
                        (quoted
                           (getCategoryName categories (FormData.categoryId formData))
                           " has been set.")))
                  None])
          end
      end.

End BudgetForm.

(* ------------------------------------------------------------------ *)
(** ** Transaction handlers (pages/Index.tsx) *)
(* ------------------------------------------------------------------ *)

Module Index.
(** The part of the page state the transaction handlers touch. *)
Record State := mk {
  expenses : list Expense.t;
  isFormOpen : bool;
  editingExpense : option Expense.t
}.
End Index.

Section TransactionHandlers.

(** Interpolation of a number in a template string. *)
Variable numberToString : JS.number -> string.

(** [handleAddExpense]; [now] stands for [Date.now()] and [new Date()]. *)
Definition handleAddExpense (now : Date) (expenseData : ExpenseData.t)
    (st : Index.State) : Index.State * Toast.t :=
  let newExpense :=
    Expense.mk (JS.toString now)
      (ExpenseData.amount expenseData) (ExpenseData.categoryId expenseData)
      (ExpenseData.description expenseData) (ExpenseData.date expenseData)
      (ExpenseData.type expenseData) now in
  (Index.mk (newExpense :: Index.expenses st) false (Index.editingExpense st),
   Toast.mk "Expense Added"
     (String.append
        (if ExpenseType_eqb (ExpenseData.type expenseData) income
         then "Income" else "Expense")
        (String.append " of $"
           (String.append (numberToString (ExpenseData.amount expenseData))
              " has been added.")))
     None).

(** [{ ...expense, ...expenseData }]: the fields of [expenseData]
    overwrite those of [expense]; [id] and [createdAt] are not among
    them. *)
Definition spread (e : Expense.t) (expenseData : ExpenseData.t) : Expense.t :=
  Expense.mk (Expense.id e)
    (ExpenseData.amount expenseData) (ExpenseData.categoryId expenseData)
    (ExpenseData.description expenseData) (ExpenseData.date expenseData)
    (ExpenseData.type expenseData) (Expense.createdAt e).

Definition handleEditExpense (id : string) (expenseData : ExpenseData.t)
    (st : Index.State) : Index.State * Toast.t :=
  (Index.mk
     (map (fun e =>
        if String.eqb (Expense.id e) id then spread e expenseData else e)
        (Index.expenses st))
     (Index.isFormOpen st) None,
   Toast.mk "Expense Updated" "Your expense has been successfully updated." None).

Definition handleDeleteExpense (id : string) (st : Index.State)
  : Index.State * Toast.t :=
  (Index.mk
     (filter (fun e => negb (String.eqb (Expense.id e) id)) (Index.expenses st))
     (Index.isFormOpen st) (Index.editingExpense st),
   Toast.mk "Expense Deleted" "The expense has been removed." destructive).

End TransactionHandlers.

(* ------------------------------------------------------------------ *)
(** ** Auxiliary notions used in the statements *)
(* ------------------------------------------------------------------ *)

(** Sum of the amounts of the transactions satisfying [p], by recursion on
    the list (the statements' reading of "the sum of the amounts of"). *)
Fixpoint sumWhere (p : Expense.t -> bool) (es : list Expense.t) : Q :=
  match es with
  | [] => 0
  | e :: rest => (if p e then Expense.amount e else 0) + sumWhere p rest
  end.

Definition isExpense (e : Expense.t) : bool := ExpenseType_eqb (Expense.type e) expense.
Definition isIncome (e : Expense.t) : bool := ExpenseType_eqb (Expense.type e) income.

(** Sum of a list of numbers. *)
Fixpoint Qsum (xs : list Q) : Q :=
  match xs with
  | [] => 0
  | x :: rest => x + Qsum rest
  end.

(** A decimal reading of number-input values such as [12.50] or [-3],
    used to instantiate [parseFloat] on concrete inputs. *)
Definition digitOf (c : ascii) : option Z :=
  let n := Z.of_nat (nat_of_ascii c) in
  if ((48 <=? n) && (n <=? 57))%Z then Some (n - 48)%Z else None.

Fixpoint parseFraction (s : string) (num : Z) (den : positive) : Q :=
  match s with
  | EmptyString => num # den
  | String c rest =>
      match digitOf c with
      | Some d => parseFraction rest (10 * num + d)%Z (10 * den)%positive
      | None => num # den
      end
  end.

Fixpoint parseUnsigned (s : string) (acc : Z) : Q :=
  match s with
  | EmptyString => acc # 1
  | String c rest =>
      match digitOf c with
      | Some d => parseUnsigned rest (10 * acc + d)%Z
      | None => if Ascii.eqb c "." then parseFraction rest acc 1 else acc # 1
      end
  end.

Definition parseDecimal (s : string) : Q :=
  match s with
  | String "-" rest => - parseUnsigned rest 0
  | _ => parseUnsigned s 0
  end.

(** *** The filter contract, as predicates on a specification and a
    transaction *)

Definition inRange (f : FilterOptions.t) (e : Expense.t) : Prop :=
  (FilterOptions.startDate f <= Expense.date e <= FilterOptions.endDate f)%Z.

Definition categoryAllowed (f : FilterOptions.t) (e : Expense.t) : Prop :=
  FilterOptions.categories f = [] \/ In (Expense.categoryId e) (FilterOptions.categories f).

Definition typeAllowed (f : FilterOptions.t) (e : Expense.t) : Prop :=
  FilterOptions.type f = all \/ FilterOptions.type f = only (Expense.type e).

(** "The bound is unset or [holds] of it". *)
Definition unsetOr (holds : Q -> Prop) (bound : option Q) : Prop :=
  match bound with
  | None => True
  | Some b => holds b
  end.

(** The contract as the specification words it. *)
Definition statedMatch (f : FilterOptions.t) (e : Expense.t) : Prop :=
  inRange f e /\ categoryAllowed f e
  /\ unsetOr (fun b => b <= Expense.amount e) (FilterOptions.minAmount f)
  /\ unsetOr (fun b => Expense.amount e <= b) (FilterOptions.maxAmount f)
  /\ typeAllowed f e.

(** The contract of the code: a bound equal to zero counts as unset. *)
Definition effectiveMatch (f : FilterOptions.t) (e : Expense.t) : Prop :=
  inRange f e /\ categoryAllowed f e
  /\ unsetOr (fun b => b == 0 \/ b <= Expense.amount e) (FilterOptions.minAmount f)
  /\ unsetOr (fun b => b == 0 \/ Expense.amount e <= b) (FilterOptions.maxAmount f)
  /\ typeAllowed f e.

(** The filter callback with the category conjunct dropped: the category
    restriction read as "match all". *)
Definition matchAllCategories (filters : FilterOptions.t) (e : Expense.t) : bool :=
  dateInRange filters e && amountMatch filters e && typeMatch filters e.

(** Calendar dates and sample data for the worked examples. *)
Definition sampleExpense (id : string) (amount : Q) (categoryId : string)
    (date : Date) (type : ExpenseType) : Expense.t :=
  Expense.mk id amount categoryId EmptyString date type date.

Definition marchFilter : FilterOptions.t :=
  FilterOptions.mk (DateFns.mkDate 2024 3 1) (DateFns.mkDate 2024 4 1 - 1)%Z
    [] None None all.

(** [RemovedAll id es rs]: [rs] is [es] with every transaction of
    identifier [id] dropped and all others kept, in order. *)
Inductive RemovedAll (id : string) : list Expense.t -> list Expense.t -> Prop :=
| removed_nil : RemovedAll id [] []
| removed_drop e es rs :
    Expense.id e = id -> RemovedAll id es rs -> RemovedAll id (e :: es) rs
| removed_keep e es rs :
    Expense.id e <> id -> RemovedAll id es rs -> RemovedAll id (e :: es) (e :: rs).

(** The (category, period) pair of a budget, and collections in which no
    two budgets share it. *)
Definition budgetKey (b : Budget.t) : string * Period :=
  (Budget.categoryId b, Budget.period b).

Definition uniqueKeys (budgets : list Budget.t) : Prop :=
  NoDup (map budgetKey budgets).

(** The form asks for a pair that a budget of the collection already has. *)
Definition keyTaken (formData : FormData.t) (budgets : list Budget.t) : Prop :=
  exists b, In b budgets
    /\ Budget.categoryId b = FormData.categoryId formData
    /\ Budget.period b = FormData.period formData.

(** The form passes the two validations that precede the duplicate check. *)
Definition formValid (parseFloat : string -> JS.number) (formData : FormData.t) : Prop :=
  FormData.categoryId formData <> EmptyString
  /\ FormData.amount formData <> EmptyString
  /\ 0 < parseFloat (FormData.amount formData).

(** *** Category totals *)






(** *** Doubles read as the rationals they denote *)

(** The transaction with its amount read as the rational it denotes. *)
Definition exactExpense (e : Double.Expense.t) : Expense.t :=
  Expense.mk (Double.Expense.id e) (Double.value (Double.Expense.amount e))
    (Double.Expense.categoryId e) (Double.Expense.description e)
    (Double.Expense.date e) (Double.Expense.type e) (Double.Expense.createdAt e).








(** Sample budgets: food monthly and rent monthly. *)
Definition foodMonthly : Budget.t := Budget.mk "100" "1" 200 monthly 100%Z.
Definition rentMonthly : Budget.t := Budget.mk "200" "9" 900 monthly 200%Z.

(** A rent budget carrying the identifier of the food budget: identifiers
    are [Date.now().toString()], distinct only across milliseconds, and the
    stored collection is read back as it is. *)
Definition rentSameId : Budget.t := Budget.mk "100" "9" 900 monthly 100%Z.

(** The add form asking for a second monthly food budget. *)
Definition addSecondFood : BudgetTracker.State :=
  BudgetTracker.mk [foodMonthly; rentMonthly] true None
    (FormData.mk "1" "150" monthly).

(** *** Budget spending *)

(** The transaction is dated within the budget's window at [now]. *)
Definition inWindow (now : Date) (budget : Budget.t) (e : Expense.t) : bool :=
  ((fst (budgetWindow now budget) <=? Expense.date e)
   && (Expense.date e <=? snd (budgetWindow now budget)))%Z.

(** An expense-kind transaction of the budget's category within its
    window: what the budget is meant to count. *)
Definition countsFor (now : Date) (budget : Budget.t) (e : Expense.t) : bool :=
  isExpense e
  && String.eqb (Expense.categoryId e) (Budget.categoryId budget)
  && inWindow now budget e.

(** Two specifications that differ at most in their date range. *)
Definition sameButDates (f g : FilterOptions.t) : Prop :=
  FilterOptions.categories f = FilterOptions.categories g
  /\ FilterOptions.minAmount f = FilterOptions.minAmount g
  /\ FilterOptions.maxAmount f = FilterOptions.maxAmount g
  /\ FilterOptions.type f = FilterOptions.type g.

Definition februaryFilter : FilterOptions.t :=
  FilterOptions.mk (DateFns.mkDate 2024 2 1) (DateFns.mkDate 2024 3 1 - 1)%Z
    [] None None all.

(** Mid-March 2024, ten in the morning. *)
Definition midMarch : Date := (DateFns.mkDate 2024 3 15 + 36000000)%Z.

Definition foodBudget : Budget.t := Budget.mk "b1" "1" 100 monthly 0%Z.

Definition marchFood : list Expense.t :=
  [sampleExpense "a" 50 "1" (DateFns.mkDate 2024 3 10) expense;
   sampleExpense "b" 35 "1" (DateFns.mkDate 2024 3 12) expense].

(* ------------------------------------------------------------------ *)
(** ** Summary cards and chart inputs (pages/Index.tsx,
    components/ChartsSection.tsx) *)
(* ------------------------------------------------------------------ *)

(** The three summary statistics, computed from the filtered list. *)
Definition totalIncome (expenses : list Expense.t) (filters : FilterOptions.t)
  : JS.number :=
  JS.reduce_sum Expense.amount
    (filter (fun e => ExpenseType_eqb (Expense.type e) income)
       (filteredExpenses expenses filters)).

Definition totalExpenses (expenses : list Expense.t) (filters : FilterOptions.t)
  : JS.number :=
  JS.reduce_sum Expense.amount
    (filter (fun e => ExpenseType_eqb (Expense.type e) expense)
       (filteredExpenses expenses filters)).

Definition netBalance (expenses : list Expense.t) (filters : FilterOptions.t)
  : JS.number :=
  (totalIncome expenses filters - totalExpenses expenses filters)%Q.

(** [<ChartsSection expenses={filteredExpenses} dateRange={filters} />]:
    the daily and cumulative series the dashboard draws. *)
Definition chartDailyData (expenses : list Expense.t) (filters : FilterOptions.t)
  : list DailyPoint.t :=
  getDailyData (filteredExpenses expenses filters) filters.

Definition chartCumulativeData (expenses : list Expense.t) (filters : FilterOptions.t)
  : list CumulativePoint.t :=
  getCumulativeData (chartDailyData expenses filters).

Module ChartData.
Record t := mk {
  name : string;
  value : JS.number;
  color : string
}.
End ChartData.

(** The pie chart data of [ChartsSection]. *)
Definition categoryData (expenses : list Expense.t) (categories : list Category.t)
  : list ChartData.t :=
  filter (fun item => JS.gt (ChartData.value item) 0)
    (map (fun category =>
       let categoryExpenses :=
         filter (fun e =>
           String.eqb (Expense.categoryId e) (Category.id category)
           && ExpenseType_eqb (Expense.type e) expense) expenses in
       let total := JS.reduce_sum Expense.amount categoryExpenses in
       ChartData.mk (Category.name category) total (Category.color category))
     categories).

(** The chart entry that shows a category total. *)
Definition chartEntry (t : CategoryTotal.t) : ChartData.t :=
  ChartData.mk (Category.name (CategoryTotal.category t)) (CategoryTotal.total t)
    (Category.color (CategoryTotal.category t)).

(* ------------------------------------------------------------------ *)
(** ** Filter controls (components/FilterControls.tsx) *)
(* ------------------------------------------------------------------ *)

(** Clicking a category badge: deselect it when selected, else append it. *)
Definition handleCategoryToggle (categoryId : string) (prev : FilterOptions.t)
  : FilterOptions.t :=
  withCategories prev
    (if JS.includes (FilterOptions.categories prev) categoryId
     then filter (fun id => negb (String.eqb id categoryId)) (FilterOptions.categories prev)
     else FilterOptions.categories prev ++ [categoryId]).

(** The "Clear Filters" button: everything but the date range is reset. *)
Definition clearFilters (prev : FilterOptions.t) : FilterOptions.t :=
  FilterOptions.mk (FilterOptions.startDate prev) (FilterOptions.endDate prev)
    [] None None all.

(** The change handlers of the two amount inputs: an empty field unsets
    the bound. *)
Definition amountInput (parseFloat : string -> JS.number) (value : string)
  : option JS.number :=
  if String.eqb value EmptyString then None else Some (parseFloat value).

Definition setMinAmount (parseFloat : string -> JS.number) (value : string)
    (prev : FilterOptions.t) : FilterOptions.t :=
  FilterOptions.mk (FilterOptions.startDate prev) (FilterOptions.endDate prev)
    (FilterOptions.categories prev) (amountInput parseFloat value)
    (FilterOptions.maxAmount prev) (FilterOptions.type prev).

Definition setMaxAmount (parseFloat : string -> JS.number) (value : string)
    (prev : FilterOptions.t) : FilterOptions.t :=
  FilterOptions.mk (FilterOptions.startDate prev) (FilterOptions.endDate prev)
    (FilterOptions.categories prev) (FilterOptions.minAmount prev)
    (amountInput parseFloat value) (FilterOptions.type prev).

(* ------------------------------------------------------------------ *)
(** ** The other handlers of the budget tracker
    (components/BudgetTracker.tsx) *)
(* ------------------------------------------------------------------ *)

Section BudgetActions.

(** [amount.toString()]. *)
Variable numberToString : JS.number -> string.

Variable categories : list Category.t.

(** Open the form on an existing budget, prefilled from it. *)
Definition handleEdit (budget : Budget.t) (st : BudgetTracker.State)
  : BudgetTracker.State :=
  BudgetTracker.mk (BudgetTracker.budgets st) true (Some budget)
    (FormData.mk (Budget.categoryId budget) (numberToString (Budget.amount budget))
       (Budget.period budget)).

(** Delete by identifier; nothing happens when no budget carries it. *)
Definition handleDelete (budgetId : string) (st : BudgetTracker.State)
  : BudgetTracker.State * list Toast.t :=
  match JS.find (fun b => String.eqb (Budget.id b) budgetId) (BudgetTracker.budgets st) with
  | Some budget =>
      (BudgetTracker.mk
         (filter (fun b => negb (String.eqb (Budget.id b) budgetId))
            (BudgetTracker.budgets st))
         (BudgetTracker.isFormOpen st) (BudgetTracker.editingBudget st)
         (BudgetTracker.formData st),
       [Toast.mk "Budget Deleted"
          (String.append "Budget for "
             (quoted (getCategoryName categories (Budget.categoryId budget))
                " has been removed."))
          destructive])
  | None => (st, [])
  end.

Definition openAddForm (st : BudgetTracker.State) : BudgetTracker.State :=
  BudgetTracker.mk (BudgetTracker.budgets st) true None FormData.empty.



(** Choosing a period resets the chosen category. *)
Definition selectPeriod (value : Period) (st : BudgetTracker.State)
  : BudgetTracker.State :=
  BudgetTracker.mk (BudgetTracker.budgets st) (BudgetTracker.isFormOpen st)
    (BudgetTracker.editingBudget st)
    (FormData.mk EmptyString (FormData.amount (BudgetTracker.formData st)) value).

(** Typing in the amount field, the only field enabled while editing. *)
Definition setAmount (value : string) (st : BudgetTracker.State)
  : BudgetTracker.State :=
  BudgetTracker.mk (BudgetTracker.budgets st) (BudgetTracker.isFormOpen st)
    (BudgetTracker.editingBudget st)
    (FormData.mk (FormData.categoryId (BudgetTracker.formData st)) value
       (FormData.period (BudgetTracker.formData st))).

End BudgetActions.

(* ------------------------------------------------------------------ *)
(** ** Category manager (components/CategoryManager.tsx) *)
(* ------------------------------------------------------------------ *)

Module CategoryForm.
Record t := mk {
  name : string;
  color : string;
  icon : string
}.

(** The memo glyph U+1F4DD, as its UTF-8 bytes. *)
Definition memo : string :=
  String (ascii_of_nat 240) (String (ascii_of_nat 159)
    (String (ascii_of_nat 147) (String (ascii_of_nat 157) EmptyString))).

Definition empty : t := mk EmptyString "#3b82f6" memo.
End CategoryForm.

Module CategoryManager.

Record State := mk {
  categories : list Category.t;
  isFormOpen : bool;
  editingCategory : option Category.t;
  formData : CategoryForm.t
}.

Section Handlers.

(** [String.prototype.trim]. *)
Variable trim : string -> string.

(** [{ ...cat, ...formData }]: the form's three fields overwrite the
    category's, the identifier stays. *)
Definition spread (cat : Category.t) (formData : CategoryForm.t) : Category.t :=
  Category.mk (Category.id cat) (CategoryForm.name formData)
    (CategoryForm.color formData) (CategoryForm.icon formData).

Definition handleSubmit (now : Date) (st : State) : State * list Toast.t :=
  let formData := formData st in
  if String.eqb (trim (CategoryForm.name formData)) EmptyString
  then (st, [Toast.mk "Error" "Category name is required." destructive])
  else
    match editingCategory st with
    | Some editing =>
        (mk (map (fun cat =>
               if String.eqb (Category.id cat) (Category.id editing)
               then spread cat formData else cat) (categories st))
           false None CategoryForm.empty,
         [Toast.mk "Category Updated"
            (quoted (CategoryForm.name formData) " has been updated.") None])
    | None =>
        let newCategory :=
          Category.mk (JS.toString now) (CategoryForm.name formData)
            (CategoryForm.color formData) (CategoryForm.icon formData) in
        (mk (categories st ++ [newCategory]) false None CategoryForm.empty,
         [Toast.mk "Category Added"
            (quoted (CategoryForm.name formData) " has been added.") None])
    end.

Definition handleEdit (category : Category.t) (st : State) : State :=
  mk (categories st) true (Some category)
    (CategoryForm.mk (Category.name category) (Category.color category)
       (Category.icon category)).

Definition handleDelete (categoryId : string) (st : State) : State * list Toast.t :=
  match JS.find (fun cat => String.eqb (Category.id cat) categoryId) (categories st) with
  | Some category =>
      (mk (filter (fun cat => negb (String.eqb (Category.id cat) categoryId))
             (categories st))
         (isFormOpen st) (editingCategory st) (formData st),
       [Toast.mk "Category Deleted"
          (quoted (Category.name category) " has been removed.") destructive])
  | None => (st, [])
  end.

Definition openAddForm (st : State) : State :=
  mk (categories st) true None CategoryForm.empty.

End Handlers.

End CategoryManager.

(* ------------------------------------------------------------------ *)
(** ** Transaction table: search and sort (components/ExpenseList.tsx) *)
(* ------------------------------------------------------------------ *)

Module ExpenseList.

Inductive SortField := date | amount | category.
Inductive SortDirection := asc | desc.

(** [s.includes(sub)] on strings: [sub] occurs somewhere in [s]. *)
Fixpoint includes (s sub : string) : bool :=
  String.prefix sub s
  || match s with
     | EmptyString => false
     | String _ rest => includes rest sub
     end.

(** The value the comparator returns, from the outcomes of
    [aValue < bValue] and [aValue > bValue]. *)
Definition directed (sortDirection : SortDirection) (lt gt : bool) : Z :=
  match sortDirection with
  | asc => if lt then (-1)%Z else if gt then 1%Z else 0%Z
  | desc => if gt then (-1)%Z else if lt then 1%Z else 0%Z
  end.

(** [Array.prototype.sort] is stable and, for a consistent comparator,
    yields the one stable ordering of its input; it is modelled by stable
    insertion: an element goes before the first one it does not follow. *)
Fixpoint insertBy {A} (cmp : A -> A -> Z) (x : A) (xs : list A) : list A :=
  match xs with
  | [] => [x]
  | y :: rest => if (cmp x y <=? 0)%Z then x :: y :: rest else y :: insertBy cmp x rest
  end.

Definition sortBy {A} (cmp : A -> A -> Z) (xs : list A) : list A :=
  fold_right (insertBy cmp) [] xs.

Section Table.

(** [String.prototype.toLowerCase]. *)
Variable toLowerCase : string -> string.

Variable categories : list Category.t.

Definition filteredExpenses (searchTerm : string) (expenses : list Expense.t)
  : list Expense.t :=
  filter (fun e =>
    includes (toLowerCase (Expense.description e)) (toLowerCase searchTerm)
    || includes (toLowerCase (getCategoryName categories (Expense.categoryId e)))
         (toLowerCase searchTerm))
    expenses.

(** The comparator passed to [sort].  Strings compare by their bytes. *)
Definition compareExpenses (sortField : SortField) (sortDirection : SortDirection)
    (a b : Expense.t) : Z :=
  match sortField with
  | date =>
      let aValue := newDate (Expense.date a) in
      let bValue := newDate (Expense.date b) in
      directed sortDirection (aValue <? bValue)%Z (bValue <? aValue)%Z
  | amount =>
      let aValue := Expense.amount a in
      let bValue := Expense.amount b in
      directed sortDirection (JS.gt bValue aValue) (JS.gt aValue bValue)
  | category =>
      let aValue := getCategoryName categories (Expense.categoryId a) in
      let bValue := getCategoryName categories (Expense.categoryId b) in
      directed sortDirection (String.ltb aValue bValue) (String.ltb bValue aValue)
  end.

Definition sortedExpenses (searchTerm : string) (sortField : SortField)
    (sortDirection : SortDirection) (expenses : list Expense.t) : list Expense.t :=
  sortBy (compareExpenses sortField sortDirection) (filteredExpenses searchTerm expenses).

End Table.

(** A click on a column header. *)
Definition handleSort (field : SortField) (current : SortField * SortDirection)
  : SortField * SortDirection :=
  let '(sortField, sortDirection) := current in
  let same := match sortField, field with
              | date, date | amount, amount | category, category => true
              | _, _ => false
              end in
  if same
  then (sortField, match sortDirection with asc => desc | desc => asc end)
  else (field, desc).

(** What "in order" means for a column and a direction. *)
Definition keyLe (categories : list Category.t) (sortField : SortField)
    (a b : Expense.t) : Prop :=
  match sortField with
  | date => (Expense.date a <= Expense.date b)%Z
  | amount => Expense.amount a <= Expense.amount b
  | category =>
      String.ltb (getCategoryName categories (Expense.categoryId b))
        (getCategoryName categories (Expense.categoryId a)) = false
  end.

Definition inOrder (categories : list Category.t) (sortField : SortField)
    (sortDirection : SortDirection) (a b : Expense.t) : Prop :=
  match sortDirection with
  | asc => keyLe categories sortField a b
  | desc => keyLe categories sortField b a
  end.

End ExpenseList.

(* ------------------------------------------------------------------ *)
(** ** Transaction form (components/ExpenseForm.tsx) and its wiring *)
(* ------------------------------------------------------------------ *)

Module ExpenseForm.

Record FormData := mk {
  amount : string;
  categoryId : string;
  description : string;
  date : Date;
  type : ExpenseType
}.

(** [handleSubmit]: [None] when it returns without calling [onSubmit],
    else the data passed to [onSubmit]. *)
Definition handleSubmit (parseFloat : string -> JS.number) (formData : FormData)
  : option ExpenseData.t :=
  if String.eqb (amount formData) EmptyString
     || String.eqb (categoryId formData) EmptyString
  then None
  else Some (ExpenseData.mk (parseFloat (amount formData)) (categoryId formData)
               (description formData) (date formData) (type formData)).

End ExpenseForm.

(** The [onSubmit] prop the page gives the form: an edit of the
    transaction being edited, else an addition. *)
Definition submitExpenseForm (parseFloat : string -> JS.number)
    (numberToString : JS.number -> string) (now : Date)
    (formData : ExpenseForm.FormData) (st : Index.State)
  : Index.State * list Toast.t :=
  match ExpenseForm.handleSubmit parseFloat formData with
  | None => (st, [])
  | Some data =>
      match Index.editingExpense st with
      | Some editingExpense =>
          let '(st', notice) := handleEditExpense (Expense.id editingExpense) data st in
          (st', [notice])
      | None =>
          let '(st', notice) := handleAddExpense numberToString now data st in
          (st', [notice])
      end
  end.

(* ------------------------------------------------------------------ *)
(** ** Initial filter (pages/Index.tsx) *)
(* ------------------------------------------------------------------ *)

(** The initial value of the [filters] state, [new Date()] being [now]:
    the current month, no other restriction. *)
Definition initialFilters (now : Date) : FilterOptions.t :=
  FilterOptions.mk (DateFns.startOfMonth now) (DateFns.endOfMonth now)
    [] None None all.

(** Friday 2024-03-01, noon: its week began in February. *)
Definition firstOfMarch : Date := (DateFns.mkDate 2024 3 1 + 43200000)%Z.

Definition foodWeekly : Budget.t := Budget.mk "b2" "1" 60 weekly 0%Z.

(* ------------------------------------------------------------------ *)
(** ** The parts of a day number in the Gregorian calendar *)
(* ------------------------------------------------------------------ *)

(** The quantities [civil_from_days] and [days_from_civil] compute on the
    way, named so that facts about them can be stated.  Years of an era
    (400 years, 146 097 days) start on March 1. *)
Module Gregorian.
Local Open Scope Z_scope.

(** Days before year [yoe] of an era. *)
Definition daysBeforeYear (yoe : Z) : Z := 365 * yoe + yoe / 4 - yoe / 100.

(** Year of the era of its day [doe]. *)
Definition yearOfEra (doe : Z) : Z :=
  (doe - doe / 1460 + doe / 36524 - doe / 146096) / 365.

(** Day of the year on which month [mp] starts (0 is March). *)
Definition monthStart (mp : Z) : Z := (153 * mp + 2) / 5.

(** Day number of the first day of year [yoe] of era [era]. *)
Definition eraStart (era yoe : Z) : Z := era * 146097 + daysBeforeYear yoe - 719468.

Definition civilOfParts (era yoe doy : Z) : Z * Z * Z :=
  let mp := (5 * doy + 2) / 153 in
  let d := doy - (153 * mp + 2) / 5 + 1 in
  let m := if mp <? 10 then mp + 3 else mp - 9 in
  let y := yoe + era * 400 in
  ((if m <=? 2 then y + 1 else y), m, d).

(** Day number of the first day of the month after month [m] of year [y]. *)
Definition nextMonthStart (y m : Z) : Z :=
  if m =? 12 then DateFns.days_from_civil (y + 1) 1 1
  else DateFns.days_from_civil y (m + 1) 1.

End Gregorian.

(* ------------------------------------------------------------------ *)
(** ** Sanity checks of the model on concrete inputs *)
(* ------------------------------------------------------------------ *)

Example parseDecimal_ex : parseDecimal "12.50" == 25 # 2 /\ parseDecimal "-3" == -3.
Proof. split; reflexivity. Qed.

Example civil_roundtrip_ex :
  DateFns.civil_from_days (DateFns.days_from_civil 2024 3 1) = (2024, 3, 1)%Z
  /\ DateFns.civil_from_days 0 = (1970, 1, 1)%Z.
Proof. split; reflexivity. Qed.

Example format_ex : DateFns.format_MMM_dd (DateFns.mkDate 2024 3 5) = "Mar 05"%string.
Proof. reflexivity. Qed.

(** 2024-03-15 was a Friday: its week runs from Sunday 03-10 to Saturday
    03-16, its month from 03-01 to 03-31. *)
Example window_ex :
  let now := (DateFns.mkDate 2024 3 15 + 36000000)%Z in
  DateFns.startOfWeek now = DateFns.mkDate 2024 3 10
  /\ DateFns.endOfWeek now = (DateFns.mkDate 2024 3 17 - 1)%Z
  /\ DateFns.startOfMonth now = DateFns.mkDate 2024 3 1
  /\ DateFns.endOfMonth now = (DateFns.mkDate 2024 4 1 - 1)%Z.
Proof. repeat split; reflexivity. Qed.

Example toString_ex : JS.toString 1710000000000 = "1710000000000"%string.
Proof. reflexivity. Qed.

(** The end-to-end scenario of the specification: one March expense of 50
    in category 1 passes the March filter and is the only category total. *)
Example scenario_ex :
  let food := Category.mk "1" "Food" "#ef4444" "F" in
  let a := sampleExpense "a" 50 "1" (DateFns.mkDate 2024 3 10) expense in
  filteredExpenses [a] marchFilter = [a]
  /\ map (fun t => (Category.name (CategoryTotal.category t), CategoryTotal.count t))
       (calculateCategoryTotals [a] [food] (Some expense)) = [("Food"%string, 1%nat)]
  /\ Forall (fun t => CategoryTotal.total t == 50)
       (calculateCategoryTotals [a] [food] (Some expense)).
Proof.
  repeat split; try reflexivity.
  repeat constructor.
Qed.

(* ------------------------------------------------------------------ *)
(** ** Rational sums *)
(* ------------------------------------------------------------------ *)

Lemma fold_sum_shift {A} (f : A -> Q) (xs : list A) (a : Q) :
  fold_left (fun sum x => sum + f x) xs a == a + JS.reduce_sum f xs.
Proof.
  unfold JS.reduce_sum. revert a.
  induction xs as [|x xs IH]; intros a; simpl.
  - lra.
  - rewrite (IH (a + f x)), (IH (0 + f x)). lra.
Qed.

Lemma reduce_sum_nil {A} (f : A -> Q) : JS.reduce_sum f [] == 0.
Proof. reflexivity. Qed.

Lemma reduce_sum_cons {A} (f : A -> Q) (x : A) (xs : list A) :
  JS.reduce_sum f (x :: xs) == f x + JS.reduce_sum f xs.
Proof.
  unfold JS.reduce_sum at 1. simpl. rewrite fold_sum_shift. lra.
Qed.

(** [filter] then [reduce] computes the conditional sum. *)
Lemma reduce_filter_sumWhere (p : Expense.t -> bool) (es : list Expense.t) :
  JS.reduce_sum Expense.amount (filter p es) == sumWhere p es.
Proof.
  induction es as [|e es IH]; simpl.
  - reflexivity.
  - destruct (p e).
    + rewrite reduce_sum_cons, IH. reflexivity.
    + rewrite IH. lra.
Qed.

Lemma sumWhere_ext (p q : Expense.t -> bool) (es : list Expense.t) :
  (forall e, In e es -> p e = q e) -> sumWhere p es == sumWhere q es.
Proof.
  induction es as [|e es IH]; intros H; simpl.
  - reflexivity.
  - rewrite (H e (or_introl eq_refl)), IH.
    + reflexivity.
    + intros x Hx. apply H. now right.
Qed.

Lemma sumWhere_filter (p q : Expense.t -> bool) (es : list Expense.t) :
  sumWhere p (filter q es) == sumWhere (fun e => q e && p e) es.
Proof.
  induction es as [|e es IH]; simpl.
  - reflexivity.
  - destruct (q e); simpl; rewrite IH; lra.
Qed.

(* ------------------------------------------------------------------ *)
(** ** The filter engine *)
(* ------------------------------------------------------------------ *)

Lemma ExpenseType_eqb_eq (a b : ExpenseType) : ExpenseType_eqb a b = true <-> a = b.
Proof. destruct a, b; simpl; split; congruence. Qed.

Lemma FilterType_eqb_eq (a b : FilterType) : FilterType_eqb a b = true <-> a = b.
Proof.
  destruct a as [|x], b as [|y]; simpl; try (split; congruence).
  rewrite ExpenseType_eqb_eq. split; congruence.
Qed.

Lemma Period_eqb_eq (a b : Period) : Period_eqb a b = true <-> a = b.
Proof. destruct a, b; simpl; split; congruence. Qed.

Lemma includes_In (xs : list string) (s : string) :
  JS.includes xs s = true <-> In s xs.
Proof.
  unfold JS.includes. rewrite existsb_exists. split.
  - intros [x [Hx Heq]]. apply String.eqb_eq in Heq. now subst.
  - intros H. exists s. split; [exact H | apply String.eqb_refl].
Qed.

Lemma dateInRange_iff f e : dateInRange f e = true <-> inRange f e.
Proof.
  unfold dateInRange, inRange, newDate.
  rewrite andb_true_iff, !Z.leb_le. tauto.
Qed.

Lemma categoryMatch_iff f e : categoryMatch f e = true <-> categoryAllowed f e.
Proof.
  unfold categoryMatch, categoryAllowed.
  rewrite orb_true_iff, includes_In, Nat.eqb_eq.
  destruct (FilterOptions.categories f); simpl; intuition congruence.
Qed.

Lemma lower_bound_iff (a : Q) (bound : option Q) :
  JS.not bound || JS.ge_opt a bound = true
  <-> unsetOr (fun b => b == 0 \/ b <= a) bound.
Proof.
  destruct bound as [b|]; simpl; [|tauto].
  unfold JS.ge. rewrite orb_true_iff, Qeq_bool_iff, Qle_bool_iff. tauto.
Qed.

Lemma upper_bound_iff (a : Q) (bound : option Q) :
  JS.not bound || JS.le_opt a bound = true
  <-> unsetOr (fun b => b == 0 \/ a <= b) bound.
Proof.
  destruct bound as [b|]; simpl; [|tauto].
  unfold JS.le. rewrite orb_true_iff, Qeq_bool_iff, Qle_bool_iff. tauto.
Qed.

Lemma amountMatch_iff f e :
  amountMatch f e = true
  <-> unsetOr (fun b => b == 0 \/ b <= Expense.amount e) (FilterOptions.minAmount f)
      /\ unsetOr (fun b => b == 0 \/ Expense.amount e <= b) (FilterOptions.maxAmount f).
Proof.
  unfold amountMatch. rewrite andb_true_iff, lower_bound_iff, upper_bound_iff. tauto.
Qed.

Lemma typeMatch_iff f e : typeMatch f e = true <-> typeAllowed f e.
Proof.
  unfold typeMatch, typeAllowed.
  rewrite orb_true_iff, !FilterType_eqb_eq. intuition congruence.
Qed.

Lemma filterPredicate_iff f e : filterPredicate f e = true <-> effectiveMatch f e.
Proof.
  unfold filterPredicate, effectiveMatch.
  rewrite !andb_true_iff, dateInRange_iff, categoryMatch_iff, amountMatch_iff,
    typeMatch_iff.
  tauto.
Qed.

(** C1 (as the code has it): the filter retains a transaction of the list
    exactly when its date lies in [startDate, endDate], the category set is
    empty or contains its category, each amount bound is unset, zero, or
    respected by its amount, and the type restriction is [all] or its own
    type. *)
Theorem filter_retains_iff_effective :
  forall (es : list Expense.t) (f : FilterOptions.t) (e : Expense.t),
    In e (filteredExpenses es f) <-> In e es /\ effectiveMatch f e.
Proof.
  intros es f e. unfold filteredExpenses.
  rewrite filter_In, filterPredicate_iff. reflexivity.
Qed.

(** C1 (as stated) fails: with a maximum bound of 0 a transaction of
    amount 50 is retained, although 50 <= 0 does not hold. *)
Lemma filter_stated_contract_fails :
  let e := sampleExpense "a" 50 "1" (DateFns.mkDate 2024 3 10) expense in
  let f := FilterOptions.mk (DateFns.mkDate 2024 3 1) (DateFns.mkDate 2024 4 1 - 1)%Z
             [] None (Some 0) all in
  ~ (In e (filteredExpenses [e] f) <-> In e [e] /\ statedMatch f e).
Proof.
  intros e f [H _].
  assert (Hin : In e (filteredExpenses [e] f)) by (left; reflexivity).
  destruct (H Hin) as [_ (_ & _ & _ & Hmax & _)].
  simpl in Hmax. revert Hmax. apply Qlt_not_le. reflexivity.
Qed.

(** C4: with an empty category set the filter is the filter without its
    category conjunct, and it agrees with every specification that differs
    only in a category set covering all categories of the list. *)
Theorem empty_category_set_matches_all :
  forall (es : list Expense.t) (f : FilterOptions.t),
    FilterOptions.categories f = [] ->
    filteredExpenses es f = filter (matchAllCategories f) es
    /\ forall cats : list string,
         (forall e, In e es -> In (Expense.categoryId e) cats) ->
         filteredExpenses es (withCategories f cats) = filteredExpenses es f.
Proof.
  intros es f Hnil.
  assert (Hcat : forall e, categoryMatch f e = true).
  { intros e. apply categoryMatch_iff. now left. }
  split.
  - unfold filteredExpenses. apply filter_ext. intros e.
    unfold filterPredicate, matchAllCategories.
    rewrite Hcat, andb_true_r. reflexivity.
  - intros cats Hcover. unfold filteredExpenses. apply filter_ext_in.
    intros e He. unfold filterPredicate.
    rewrite Hcat.
    assert (Hc : categoryMatch (withCategories f cats) e = true).
    { apply categoryMatch_iff. right. simpl. auto. }
    rewrite Hc. reflexivity.
Qed.

Lemma empty_category_set_matches_all_witness :
  let a := sampleExpense "a" 50 "1" (DateFns.mkDate 2024 3 10) expense in
  let b := sampleExpense "b" 20 "2" (DateFns.mkDate 2024 3 11) income in
  filteredExpenses [a; b] marchFilter = filter (matchAllCategories marchFilter) [a; b]
  /\ forall cats : list string,
       (forall e, In e [a; b] -> In (Expense.categoryId e) cats) ->
       filteredExpenses [a; b] (withCategories marchFilter cats)
       = filteredExpenses [a; b] marchFilter.
Proof.
  intros a b. apply (empty_category_set_matches_all [a; b] marchFilter). reflexivity.
Defined.

(* ------------------------------------------------------------------ *)
(** ** Budget status *)
(* ------------------------------------------------------------------ *)

Lemma Qle_bool_false (a b : Q) : Qle_bool a b = false <-> b < a.
Proof.
  split; intros H.
  - apply Qnot_le_lt. intros Hle. apply Qle_bool_iff in Hle. congruence.
  - destruct (Qle_bool a b) eqn:E; [|reflexivity].
    apply Qle_bool_iff in E. exfalso. revert E. now apply Qlt_not_le.
Qed.

(** Turn the outcome of boolean comparisons into order facts. *)
Ltac q_tests :=
  repeat match goal with
  | H : Qle_bool _ _ = true |- _ => apply Qle_bool_iff in H
  | H : Qle_bool _ _ = false |- _ => apply Qle_bool_false in H
  end.

Section DoubleOrder.
Import PrimFloat SpecFloat FloatOps FloatAxioms.
















(** The cards of the boundary cases: spending 130 of 100 shows a full bar
    and a remaining amount of -30; a budget of amount 0 (which the form
    refuses but storage may hold) is [good] with nothing spent, the
    percentage being [NaN], and [exceeded] with anything spent. *)
Example budget_cards_ex :
  let budget := Double.Budget.mk "b1" "1" 100 monthly 0%Z in
  let empty := Double.Budget.mk "b0" "1" 0 monthly 0%Z in
  Double.budgetCardFor budget 130
  = Double.BudgetCard.mk 130 (-30) 100 "exceeded" "bg-red-500"
  /\ Double.budgetCardFor budget 85
     = Double.BudgetCard.mk 85 15 85 "warning" "bg-orange-500"
  /\ Double.BudgetCard.status (Double.budgetCardFor empty 0) = "good"%string
  /\ is_nan (Double.BudgetCard.percentage (Double.budgetCardFor empty 0)) = true
  /\ Double.BudgetCard.status (Double.budgetCardFor empty 5) = "exceeded"%string.
Proof. repeat split. Qed.


End DoubleOrder.

(* ------------------------------------------------------------------ *)
(** ** Cumulative series *)
(* ------------------------------------------------------------------ *)

Lemma cumulativeFrom_length (daily : list DailyPoint.t) :
  forall ci ce, List.length (cumulativeFrom ci ce daily) = List.length daily.
Proof.
  induction daily as [|d daily IH]; intros ci ce; simpl.
  - reflexivity.
  - now rewrite IH.
Qed.

(** Started from accumulators [ci] and [ce], the point of index [k] holds
    the accumulators plus the sums over the first [k + 1] daily points. *)
Lemma cumulativeFrom_nth (daily : list DailyPoint.t) :
  forall (ci ce : Q) (k : nat) (d : DailyPoint.t),
    nth_error daily k = Some d ->
    exists cp,
      nth_error (cumulativeFrom ci ce daily) k = Some cp
      /\ CumulativePoint.date cp = DailyPoint.date d
      /\ CumulativePoint.cumulativeIncome cp
         == ci + Qsum (map DailyPoint.income (firstn (S k) daily))
      /\ CumulativePoint.cumulativeExpenses cp
         == ce + Qsum (map DailyPoint.expenses (firstn (S k) daily))
      /\ CumulativePoint.balance cp
         = CumulativePoint.cumulativeIncome cp - CumulativePoint.cumulativeExpenses cp.
Proof.
  induction daily as [|d0 daily IH]; intros ci ce k d Hk.
  - destruct k; discriminate.
  - destruct k as [|k].
    + simpl in Hk. injection Hk as <-.
      eexists. split; [reflexivity|]. simpl. repeat split; lra.
    + simpl in Hk.
      destruct (IH (ci + DailyPoint.income d0) (ce + DailyPoint.expenses d0) k d Hk)
        as (cp & Hnth & Hdate & Hinc & Hexp & Hbal).
      exists cp. split; [exact Hnth|]. split; [exact Hdate|].
      split; [|split; [|exact Hbal]].
      * rewrite Hinc. change (firstn (S (S k)) (d0 :: daily)) with (d0 :: firstn (S k) daily).
        simpl map. simpl Qsum. lra.
      * rewrite Hexp. change (firstn (S (S k)) (d0 :: daily)) with (d0 :: firstn (S k) daily).
        simpl map. simpl Qsum. lra.
Qed.

(** C7: the cumulative series has one point per daily point; the point of
    index [k] (the (k+1)-th) carries the sum of the incomes of the first
    k+1 daily points, the sum of their expenses, and as balance the
    difference of the two. *)
Theorem cumulative_series_prefix_sums :
  forall (daily : list DailyPoint.t) (k : nat),
    (k < List.length daily)%nat ->
    List.length (getCumulativeData daily) = List.length daily
    /\ exists cp,
         nth_error (getCumulativeData daily) k = Some cp
         /\ CumulativePoint.cumulativeIncome cp
            == Qsum (map DailyPoint.income (firstn (S k) daily))
         /\ CumulativePoint.cumulativeExpenses cp
            == Qsum (map DailyPoint.expenses (firstn (S k) daily))
         /\ CumulativePoint.balance cp
            = CumulativePoint.cumulativeIncome cp - CumulativePoint.cumulativeExpenses cp.
Proof.
  intros daily k Hk. unfold getCumulativeData.
  split; [apply cumulativeFrom_length|].
  destruct (nth_error daily k) as [d|] eqn:Hd.
  - destruct (cumulativeFrom_nth daily 0 0 k d Hd) as (cp & Hnth & _ & Hinc & Hexp & Hbal).
    exists cp. repeat split; try assumption.
    + rewrite Hinc. lra.
    + rewrite Hexp. lra.
  - apply nth_error_None in Hd. lia.
Qed.

Lemma cumulative_series_prefix_sums_witness :
  let daily := [DailyPoint.mk "Mar 01" 10 100 90; DailyPoint.mk "Mar 02" 30 0 (-30);
                DailyPoint.mk "Mar 03" 5 20 15] in
  List.length (getCumulativeData daily) = List.length daily
  /\ exists cp,
       nth_error (getCumulativeData daily) 2 = Some cp
       /\ CumulativePoint.cumulativeIncome cp
          == Qsum (map DailyPoint.income (firstn 3 daily))
       /\ CumulativePoint.cumulativeExpenses cp
          == Qsum (map DailyPoint.expenses (firstn 3 daily))
       /\ CumulativePoint.balance cp
          = CumulativePoint.cumulativeIncome cp - CumulativePoint.cumulativeExpenses cp.
Proof.
  intros daily. apply (cumulative_series_prefix_sums daily 2). simpl. lia.
Defined.

(* ------------------------------------------------------------------ *)
(** ** Editing and deleting transactions *)
(* ------------------------------------------------------------------ *)

Lemma nth_error_map_some {A B} (g : A -> B) (xs : list A) (i : nat) (x : A) :
  nth_error xs i = Some x -> nth_error (map g xs) i = Some (g x).
Proof.
  intros H. rewrite nth_error_map, H. reflexivity.
Qed.

(** C9: an edit keeps the length of the collection; at every position the
    identifier and creation time are kept; a transaction with another
    identifier is kept whole; one with the edited identifier takes its
    amount, category, description, date and type from the submitted data. *)
Theorem edit_expense_frame :
  forall (id : string) (data : ExpenseData.t) (st : Index.State) (i : nat) (e : Expense.t),
    nth_error (Index.expenses st) i = Some e ->
    let st' := fst (handleEditExpense id data st) in
    List.length (Index.expenses st') = List.length (Index.expenses st)
    /\ exists e',
         nth_error (Index.expenses st') i = Some e'
         /\ Expense.id e' = Expense.id e
         /\ Expense.createdAt e' = Expense.createdAt e
         /\ (Expense.id e <> id -> e' = e)
         /\ (Expense.id e = id ->
             Expense.amount e' = ExpenseData.amount data
             /\ Expense.categoryId e' = ExpenseData.categoryId data
             /\ Expense.description e' = ExpenseData.description data
             /\ Expense.date e' = ExpenseData.date data
             /\ Expense.type e' = ExpenseData.type data).
Proof.
  intros id data st i e Hnth st'. simpl.
  split; [apply length_map|].
  eexists. split; [apply nth_error_map_some; exact Hnth|].
  destruct (String.eqb (Expense.id e) id) eqn:E.
  - apply String.eqb_eq in E. simpl. repeat split; intros; congruence.
  - apply String.eqb_neq in E. repeat split; intros; congruence.
Qed.

Lemma edit_expense_frame_witness :
  let a := sampleExpense "a" 50 "1" (DateFns.mkDate 2024 3 10) expense in
  let b := sampleExpense "b" 20 "2" (DateFns.mkDate 2024 3 11) income in
  let data := ExpenseData.mk 75 "3" "lunch" (DateFns.mkDate 2024 3 12) expense in
  let st := Index.mk [a; b] false (Some b) in
  let st' := fst (handleEditExpense "b" data st) in
  List.length (Index.expenses st') = 2%nat
  /\ exists e',
       nth_error (Index.expenses st') 1 = Some e'
       /\ Expense.id e' = "b"%string
       /\ Expense.createdAt e' = Expense.createdAt b
       /\ (Expense.id b <> "b"%string -> e' = b)
       /\ (Expense.id b = "b"%string ->
           Expense.amount e' = ExpenseData.amount data
           /\ Expense.categoryId e' = ExpenseData.categoryId data
           /\ Expense.description e' = ExpenseData.description data
           /\ Expense.date e' = ExpenseData.date data
           /\ Expense.type e' = ExpenseData.type data).
Proof.
  intros a b data st st'.
  apply (edit_expense_frame "b" data st 1 b). reflexivity.
Defined.

Lemma delete_RemovedAll (id : string) (es : list Expense.t) :
  RemovedAll id es (filter (fun e => negb (String.eqb (Expense.id e) id)) es).
Proof.
  induction es as [|e es IH]; simpl.
  - constructor.
  - destruct (String.eqb (Expense.id e) id) eqn:E; simpl.
    + apply removed_drop; [now apply String.eqb_eq | exact IH].
    + apply removed_keep; [now apply String.eqb_neq | exact IH].
Qed.

(** [RemovedAll] determines its result. *)
Lemma RemovedAll_functional (id : string) (es rs rs' : list Expense.t) :
  RemovedAll id es rs -> RemovedAll id es rs' -> rs = rs'.
Proof.
  intros H. revert rs'.
  induction H as [|e es rs He _ IH|e es rs He _ IH]; intros rs' H'; inversion H'; subst;
    try congruence.
  - now apply IH.
  - f_equal. now apply IH.
Qed.

(** C10: a delete drops every transaction carrying the identifier and keeps
    all others, unchanged and in order; two transactions added at the same
    millisecond get the same identifier, and one delete of that identifier
    removes both. *)
Theorem delete_expense_removes_every_match :
  forall (numberToString : JS.number -> string) (id : string) (st : Index.State)
         (now : Date) (d1 d2 : ExpenseData.t),
    let after := Index.expenses (fst (handleDeleteExpense id st)) in
    let st2 := fst (handleAddExpense numberToString now d2
                      (fst (handleAddExpense numberToString now d1 st))) in
    RemovedAll id (Index.expenses st) after
    /\ (forall e, In e after <-> In e (Index.expenses st) /\ Expense.id e <> id)
    /\ (exists e1 e2,
          Index.expenses st2 = e2 :: e1 :: Index.expenses st
          /\ Expense.id e1 = JS.toString now /\ Expense.id e2 = JS.toString now)
    /\ Index.expenses (fst (handleDeleteExpense (JS.toString now) st2))
       = Index.expenses (fst (handleDeleteExpense (JS.toString now) st)).
Proof.
  intros n2s id st now d1 d2 after st2.
  split; [apply delete_RemovedAll|].
  split.
  - intros e. unfold after. simpl. rewrite filter_In, negb_true_iff.
    split; intros [Hin Hid]; split; try assumption.
    + now apply String.eqb_neq.
    + now apply String.eqb_neq.
  - split.
    + do 2 eexists. simpl. split; [reflexivity|]. split; reflexivity.
    + simpl. rewrite String.eqb_refl. reflexivity.
Qed.

(* ------------------------------------------------------------------ *)
(** ** The duplicate check of the budget form *)
(* ------------------------------------------------------------------ *)

Lemma find_keyTaken (formData : FormData.t) (budgets : list Budget.t) :
  keyTaken formData budgets ->
  exists b,
    JS.find (fun budget =>
      String.eqb (Budget.categoryId budget) (FormData.categoryId formData)
      && Period_eqb (Budget.period budget) (FormData.period formData)) budgets
    = Some b.
Proof.
  intros (b & Hin & Hcat & Hper). unfold JS.find.
  destruct (List.find _ budgets) as [b'|] eqn:Hfind; [now exists b'|].
  pose proof (find_none _ _ Hfind b Hin) as Hb. simpl in Hb.
  rewrite Hcat, Hper, String.eqb_refl in Hb.
  assert (Hp : Period_eqb (FormData.period formData) (FormData.period formData) = true)
    by now apply Period_eqb_eq.
  rewrite Hp in Hb. discriminate.
Qed.

(** While editing, the category and period selects are disabled: the form
    submitted is the one [handleEdit] prefilled, with another amount. *)
Lemma submit_edited_amount (parseFloat : string -> JS.number)
    (numberToString : JS.number -> string) (categories : list Category.t)
    (now : Date) (st : BudgetTracker.State) (budget : Budget.t) (value : string) :
  let st1 := setAmount value (handleEdit numberToString budget st) in
  formValid parseFloat (BudgetTracker.formData st1) ->
  BudgetTracker.budgets (fst (handleSubmit parseFloat categories now st1))
  = map (fun b =>
      if String.eqb (Budget.id b) (Budget.id budget)
      then Budget.mk (Budget.id b) (Budget.categoryId budget) (parseFloat value)
             (Budget.period budget) (Budget.createdAt b)
      else b) (BudgetTracker.budgets st).
Proof.
  intros st1 (Hc & Ha & Hpos). unfold st1, handleSubmit in *. simpl in *.
  apply String.eqb_neq in Hc. apply String.eqb_neq in Ha. rewrite Hc, Ha. simpl.
  assert (Hle : JS.le (parseFloat value) 0 = false).
  { unfold JS.le. now apply Qle_bool_false. }
  rewrite Hle. reflexivity.
Qed.

Lemma NoDup_map_eq {A B} (g : A -> B) (xs : list A) (x y : A) :
  NoDup (map g xs) -> In x xs -> In y xs -> g x = g y -> x = y.
Proof.
  induction xs as [|a xs IH]; simpl; intros Hnd Hx Hy Heq; [contradiction|].
  inversion Hnd as [|k ks Hnotin Hnd']; subst.
  destruct Hx as [->|Hx], Hy as [->|Hy].
  - reflexivity.
  - exfalso. apply Hnotin. rewrite Heq. now apply in_map.
  - exfalso. apply Hnotin. rewrite <- Heq. now apply in_map.
  - now apply IH.
Qed.

(** C8: when the requested (category, period) pair is already taken, a
    create leaves the whole state, and so the budget collection, as it was
    and raises one destructive notice, titled "Budget Exists" when the form
    is otherwise valid; an edit with a valid form goes through whatever the
    other budgets are.  An edit made through the form (open it on a budget
    of the collection, change the amount, submit) keeps every pair when the
    budgets sharing the edited identifier share its pair, and leaves two
    budgets with the same pair when another budget shares the edited
    identifier under a different pair. *)
Theorem duplicate_budget_checked_on_create_only :
  forall (parseFloat : string -> JS.number) (numberToString : JS.number -> string)
         (categories : list Category.t) (now : Date) (st : BudgetTracker.State),
    (BudgetTracker.editingBudget st = None ->
     keyTaken (BudgetTracker.formData st) (BudgetTracker.budgets st) ->
       fst (handleSubmit parseFloat categories now st) = st
       /\ exists notice,
            snd (handleSubmit parseFloat categories now st) = [notice]
            /\ Toast.variant notice = destructive
            /\ (formValid parseFloat (BudgetTracker.formData st) ->
                Toast.title notice = "Budget Exists"%string))
    /\ (forall editing,
          BudgetTracker.editingBudget st = Some editing ->
          formValid parseFloat (BudgetTracker.formData st) ->
          BudgetTracker.budgets (fst (handleSubmit parseFloat categories now st))
          = editBudgets editing (BudgetTracker.formData st)
              (parseFloat (FormData.amount (BudgetTracker.formData st)))
              (BudgetTracker.budgets st)
          /\ exists notice,
               snd (handleSubmit parseFloat categories now st) = [notice]
               /\ Toast.title notice = "Budget Updated"%string)
    /\ (forall (budget : Budget.t) (value : string),
          let st1 := setAmount value (handleEdit numberToString budget st) in
          let after :=
            BudgetTracker.budgets (fst (handleSubmit parseFloat categories now st1)) in
          In budget (BudgetTracker.budgets st) ->
          formValid parseFloat (BudgetTracker.formData st1) ->
          ((forall b, In b (BudgetTracker.budgets st) ->
                      Budget.id b = Budget.id budget -> budgetKey b = budgetKey budget) ->
           map budgetKey after = map budgetKey (BudgetTracker.budgets st))
          /\ ((exists other, In other (BudgetTracker.budgets st)
                             /\ Budget.id other = Budget.id budget
                             /\ budgetKey other <> budgetKey budget) ->
              ~ uniqueKeys after)).
Proof.
  intros parseFloat numberToString categories now st.
  split; [|split].
  - intros Hcreate Htaken.
    destruct (find_keyTaken _ _ Htaken) as [b Hfind].
    unfold handleSubmit.
    destruct (_ || _) eqn:Hempty.
    { split; [reflexivity|]. eexists. split; [reflexivity|]. split; [reflexivity|].
      intros (Hc & Ha & _). apply orb_true_iff in Hempty.
      destruct Hempty as [H|H]; apply String.eqb_eq in H; contradiction. }
    destruct (JS.le _ 0) eqn:Hle.
    { split; [reflexivity|]. eexists. split; [reflexivity|]. split; [reflexivity|].
      intros (_ & _ & Hpos). unfold JS.le in Hle. q_tests. exfalso. lra. }
    rewrite Hcreate, Hfind.
    split; [reflexivity|]. eexists. split; [reflexivity|]. split; reflexivity.
  - intros editing Hedit (Hc & Ha & Hpos). unfold handleSubmit.
    apply String.eqb_neq in Hc. apply String.eqb_neq in Ha. rewrite Hc, Ha. simpl orb.
    cbv iota.
    assert (Hle : JS.le (parseFloat (FormData.amount (BudgetTracker.formData st))) 0 = false).
    { unfold JS.le. apply Qle_bool_false. exact Hpos. }
    rewrite Hle, Hedit. simpl.
    split; [reflexivity|]. eexists. split; reflexivity.
  - intros budget value st1 after Hin Hvalid.
    unfold after, st1. rewrite (submit_edited_amount _ _ _ _ _ _ _ Hvalid).
    set (budgets := BudgetTracker.budgets st) in *.
    set (edit := fun b : Budget.t =>
           if String.eqb (Budget.id b) (Budget.id budget)
           then Budget.mk (Budget.id b) (Budget.categoryId budget) (parseFloat value)
                  (Budget.period budget) (Budget.createdAt b)
           else b).
    split.
    + intros Hshared. rewrite map_map. apply map_ext_in. intros b Hb. unfold edit.
      destruct (String.eqb (Budget.id b) (Budget.id budget)) eqn:E; [|reflexivity].
      apply String.eqb_eq in E. symmetry. exact (Hshared b Hb E).
    + intros (other & Hother & Hid & Hkey) Huniq.
      unfold uniqueKeys in Huniq. rewrite map_map in Huniq.
      apply Hkey. f_equal. symmetry.
      apply (NoDup_map_eq (fun b => budgetKey (edit b)) budgets budget other Huniq Hin Hother).
      unfold edit. rewrite Hid, String.eqb_refl. reflexivity.
Qed.

(** Asking for a second monthly food budget is refused; editing the food
    budget while the rent budget carries its identifier turns both into
    monthly food budgets. *)
Lemma duplicate_budget_checked_on_create_only_witness :
  let st := BudgetTracker.mk [foodMonthly; rentSameId] false None FormData.empty in
  let edited := setAmount "250" (handleEdit (fun _ => "200"%string) foodMonthly st) in
  (fst (handleSubmit parseDecimal [] 1710000000000%Z addSecondFood) = addSecondFood
   /\ exists notice,
        snd (handleSubmit parseDecimal [] 1710000000000%Z addSecondFood) = [notice]
        /\ Toast.variant notice = destructive
        /\ (formValid parseDecimal (BudgetTracker.formData addSecondFood) ->
            Toast.title notice = "Budget Exists"%string))
  /\ uniqueKeys (BudgetTracker.budgets st)
  /\ ~ uniqueKeys (BudgetTracker.budgets
                     (fst (handleSubmit parseDecimal [] 1710000000000%Z edited)))
  /\ map budgetKey (BudgetTracker.budgets
                      (fst (handleSubmit parseDecimal [] 1710000000000%Z edited)))
     = [("1"%string, monthly); ("1"%string, monthly)].
Proof.
  intros st edited.
  assert (Htaken : keyTaken (BudgetTracker.formData addSecondFood)
                     (BudgetTracker.budgets addSecondFood)).
  { exists foodMonthly. simpl. repeat split. left. reflexivity. }
  assert (Hvalid : formValid parseDecimal (BudgetTracker.formData edited)).
  { repeat split; try discriminate. }
  split; [|split; [|split]].
  - apply (proj1 (duplicate_budget_checked_on_create_only parseDecimal
                    (fun _ => "200"%string) [] 1710000000000%Z addSecondFood)).
    + reflexivity.
    + exact Htaken.
  - unfold uniqueKeys. simpl. constructor.
    + intros [H|[]]. discriminate.
    + constructor; [intros [] | constructor].
  - apply (proj2 (proj2 (duplicate_budget_checked_on_create_only parseDecimal
                           (fun _ => "200"%string) [] 1710000000000%Z st))
             foodMonthly "250"%string (or_introl eq_refl) Hvalid).
    exists rentSameId. split; [right; left; reflexivity|].
    split; [reflexivity | discriminate].
  - reflexivity.
Defined.

(* ------------------------------------------------------------------ *)
(** ** Daily series *)
(* ------------------------------------------------------------------ *)

Section EachDay.
Import DateFns.
Local Open Scope Z_scope.

Lemma eachDayLoop_cons (cur endT : Z) :
  cur <= endT -> eachDayLoop cur endT = cur :: eachDayLoop (cur + DAY) endT.
Proof.
  intros H. rewrite eachDayLoop_equation_1.
  destruct (Z_le_dec cur endT); [reflexivity | contradiction].
Qed.

Lemma eachDayLoop_nil (cur endT : Z) :
  endT < cur -> eachDayLoop cur endT = [].
Proof.
  intros H. rewrite eachDayLoop_equation_1.
  destruct (Z_le_dec cur endT); [lia | reflexivity].
Qed.

(** The loop yields the midnights [cur], [cur + DAY], ... up to the last
    one that is not after [endT]. *)
Lemma eachDayLoop_days (n : nat) :
  forall cur endT,
    cur <= endT -> (endT - cur) / DAY = Z.of_nat n ->
    eachDayLoop cur endT = map (fun i => cur + Z.of_nat i * DAY) (seq 0 (S n)).
Proof.
  induction n as [|n IH]; intros cur endT Hle Hdiv.
  - rewrite eachDayLoop_cons by exact Hle.
    rewrite eachDayLoop_nil.
    + simpl. f_equal. lia.
    + assert (H : endT - cur < DAY).
      { apply Z.div_small_iff in Hdiv; [|unfold DAY; lia]. unfold DAY in *. lia. }
      lia.
  - assert (Hday : 0 < DAY) by (unfold DAY; lia).
    assert (Hstep : (endT - (cur + DAY)) / DAY = Z.of_nat n).
    { replace (endT - (cur + DAY)) with (endT - cur + (-1) * DAY) by lia.
      rewrite Z.div_add by lia. lia. }
    assert (Hle' : cur + DAY <= endT).
    { destruct (Z_le_dec (cur + DAY) endT) as [|Hgt]; [assumption|].
      assert (Hsmall : (endT - cur) / DAY = 0)
        by (apply Z.div_small; lia).
      lia. }
    rewrite eachDayLoop_cons by exact Hle.
    rewrite (IH (cur + DAY) endT Hle' Hstep).
    change (seq 0 (S (S n))) with (0%nat :: seq 1 (S n)).
    rewrite <- seq_shift, map_cons, map_map.
    f_equal; [lia|].
    apply map_ext. intros i. lia.
Qed.

Lemma startOfDay_le (d : Date) : startOfDay d <= d.
Proof.
  unfold startOfDay, dayNumber.
  pose proof (Z.mul_div_le d DAY). unfold DAY in *. lia.
Qed.

Lemma startOfDay_eqb (a b : Date) :
  (startOfDay a =? startOfDay b) = (dayNumber a =? dayNumber b).
Proof.
  unfold startOfDay.
  destruct (dayNumber a =? dayNumber b) eqn:E.
  - apply Z.eqb_eq in E. rewrite E. apply Z.eqb_refl.
  - apply Z.eqb_neq in E. apply Z.eqb_neq. unfold DAY. lia.
Qed.

Lemma dayNumber_midnight (n : Z) : dayNumber (n * DAY) = n.
Proof. unfold dayNumber. apply Z.div_mul. unfold DAY. lia. Qed.

(** From a midnight on, whole elapsed days and calendar days agree. *)
Lemma elapsed_days_from_midnight (start end_ : Date) :
  startOfDay start = start ->
  (end_ - start) / DAY = dayNumber end_ - dayNumber start.
Proof.
  intros Hmid. unfold startOfDay in Hmid.
  remember (dayNumber start) as dn eqn:Hdn.
  rewrite <- Hmid.
  replace (end_ - dn * DAY) with (end_ + (- dn) * DAY) by lia.
  rewrite Z.div_add by (unfold DAY; lia).
  fold (dayNumber end_). lia.
Qed.

(** The days of an interval are the midnights of the calendar days from
    that of [start] to that of [end_]. *)
Lemma eachDayOfInterval_days (start end_ : Date) :
  start <= end_ ->
  eachDayOfInterval start end_
  = map (fun i => (dayNumber start + Z.of_nat i) * DAY)
      (seq 0 (Z.to_nat (dayNumber end_ - dayNumber start + 1))).
Proof.
  intros Hle. unfold eachDayOfInterval.
  assert (Hdn : dayNumber start <= dayNumber end_).
  { unfold dayNumber. apply Z.div_le_mono; [unfold DAY; lia | exact Hle]. }
  pose proof (startOfDay_le start) as Hs.
  rewrite (eachDayLoop_days (Z.to_nat (dayNumber end_ - dayNumber start))).
  - replace (Z.to_nat (dayNumber end_ - dayNumber start + 1))
      with (S (Z.to_nat (dayNumber end_ - dayNumber start))) by lia.
    apply map_ext. intros i. unfold startOfDay. lia.
  - lia.
  - unfold startOfDay.
    replace (end_ - dayNumber start * DAY) with (end_ + (- dayNumber start) * DAY) by lia.
    rewrite Z.div_add by (unfold DAY; lia).
    fold (dayNumber end_). lia.
Qed.

End EachDay.

Lemma sumWhere_none (p : Expense.t -> bool) (es : list Expense.t) :
  (forall e, In e es -> p e = false) -> sumWhere p es == 0.
Proof.
  induction es as [|e es IH]; intros H; simpl.
  - reflexivity.
  - rewrite (H e (or_introl eq_refl)), IH; [lra|].
    intros x Hx. apply H. now right.
Qed.

(** The point of a day: its income and its expense are the sums over the
    transactions of that calendar day, its net their difference. *)
Lemma dailyPoint_sums (es : list Expense.t) (day : Date) :
  let onDay := fun e => (DateFns.dayNumber (Expense.date e) =? DateFns.dayNumber day)%Z in
  DailyPoint.income (dailyPoint es day) == sumWhere (fun e => onDay e && isIncome e) es
  /\ DailyPoint.expenses (dailyPoint es day) == sumWhere (fun e => onDay e && isExpense e) es
  /\ DailyPoint.net (dailyPoint es day)
     = DailyPoint.income (dailyPoint es day) - DailyPoint.expenses (dailyPoint es day).
Proof.
  intros onDay. unfold dailyPoint, newDate. simpl.
  split; [|split; [|reflexivity]].
  - rewrite reduce_filter_sumWhere, sumWhere_filter.
    apply sumWhere_ext. intros e _. rewrite startOfDay_eqb. reflexivity.
  - rewrite reduce_filter_sumWhere, sumWhere_filter.
    apply sumWhere_ext. intros e _. rewrite startOfDay_eqb. reflexivity.
Qed.

(** C5: for a range with [startDate <= endDate] the daily series has one
    point per calendar day from the day of [startDate] to the day of
    [endDate]: (difference of the two days) + 1 points, the one of index
    [k] being the point of the k-th day after the first; each point's
    income and expense are the sums over that day's transactions, its net
    is income minus expense, and a day without transactions gives zeros.
    When [startDate] is a midnight the difference of the two days is the
    number of whole days elapsed from [startDate] to [endDate]. *)
Theorem daily_series_one_point_per_day :
  forall (es : list Expense.t) (range : FilterOptions.t),
    (FilterOptions.startDate range <= FilterOptions.endDate range)%Z ->
    let first := DateFns.dayNumber (FilterOptions.startDate range) in
    let last := DateFns.dayNumber (FilterOptions.endDate range) in
    let onDay := fun day e =>
      (DateFns.dayNumber (Expense.date e) =? DateFns.dayNumber day)%Z in
    List.length (getDailyData es range) = Z.to_nat (last - first + 1)
    /\ (DateFns.startOfDay (FilterOptions.startDate range) = FilterOptions.startDate range ->
        (last - first
         = (FilterOptions.endDate range - FilterOptions.startDate range) / DateFns.DAY)%Z)
    /\ (forall k : nat,
          (Z.of_nat k <= last - first)%Z ->
          nth_error (getDailyData es range) k
          = Some (dailyPoint es ((first + Z.of_nat k) * DateFns.DAY)%Z))
    /\ (forall day : Date,
          let p := dailyPoint es day in
          DailyPoint.income p == sumWhere (fun e => onDay day e && isIncome e) es
          /\ DailyPoint.expenses p == sumWhere (fun e => onDay day e && isExpense e) es
          /\ DailyPoint.net p = DailyPoint.income p - DailyPoint.expenses p
          /\ ((forall e, In e es -> onDay day e = false) ->
              DailyPoint.income p == 0 /\ DailyPoint.expenses p == 0
              /\ DailyPoint.net p == 0)).
Proof.
  intros es range Hle first last onDay.
  unfold getDailyData. rewrite (eachDayOfInterval_days _ _ Hle).
  fold first last.
  split; [|split; [|split]].
  - rewrite !length_map, length_seq. reflexivity.
  - intros Hmidnight. unfold last, first. symmetry.
    apply elapsed_days_from_midnight. exact Hmidnight.
  - intros k Hk. rewrite map_map.
    rewrite nth_error_map, nth_error_seq.
    destruct (Nat.ltb_spec k (Z.to_nat (last - first + 1))) as [_|Hge]; [reflexivity|lia].
  - intros day. set (p := dailyPoint es day).
    destruct (dailyPoint_sums es day) as (Hinc & Hexp & Hnet).
    fold p in Hinc, Hexp, Hnet.
    split; [exact Hinc|]. split; [exact Hexp|]. split; [exact Hnet|].
    intros Hnone.
    assert (Hi : DailyPoint.income p == 0).
    { rewrite Hinc. apply sumWhere_none. intros e He.
      unfold onDay in Hnone. rewrite (Hnone e He). reflexivity. }
    assert (He : DailyPoint.expenses p == 0).
    { rewrite Hexp. apply sumWhere_none. intros e Hin.
      unfold onDay in Hnone. rewrite (Hnone e Hin). reflexivity. }
    split; [exact Hi|]. split; [exact He|].
    rewrite Hnet, Hi, He. reflexivity.
Qed.

(** The length invariant of the specification: from 2024-03-01 to
    2024-03-05 the series has five points, whatever the transactions. *)
Example march_first_five_days (es : list Expense.t) :
  List.length
    (getDailyData es
       (FilterOptions.mk (DateFns.mkDate 2024 3 1) (DateFns.mkDate 2024 3 5)
          [] None None all)) = 5%nat.
Proof.
  unfold getDailyData. rewrite length_map. reflexivity.
Qed.

Lemma daily_series_one_point_per_day_witness :
  let a := sampleExpense "a" 50 "1" (DateFns.mkDate 2024 3 2) expense in
  let range := FilterOptions.mk (DateFns.mkDate 2024 3 1) (DateFns.mkDate 2024 3 5)
                 [] None None all in
  List.length (getDailyData [a] range) = 5%nat
  /\ nth_error (getDailyData [a] range) 4
     = Some (dailyPoint [a] (DateFns.mkDate 2024 3 5)).
Proof.
  intros a range.
  assert (Hle : (FilterOptions.startDate range <= FilterOptions.endDate range)%Z)
    by (vm_compute; discriminate).
  destruct (daily_series_one_point_per_day [a] range Hle) as (Hlen & _ & Hnth & _).
  split.
  - exact Hlen.
  - apply (Hnth 4%nat). vm_compute. discriminate.
Defined.

(* ------------------------------------------------------------------ *)
(** ** Category totals *)
(* ------------------------------------------------------------------ *)






Lemma gt_zero_iff (x : Q) : JS.gt x 0 = true <-> 0 < x.
Proof.
  unfold JS.gt. rewrite negb_true_iff. apply Qle_bool_false.
Qed.




Section DoubleTotals.
Import PrimFloat.

Lemma filter_exactExpense (p : Expense.t -> bool) (es : list Double.Expense.t) :
  filter p (map exactExpense es) = map exactExpense (filter (fun e => p (exactExpense e)) es).
Proof.
  induction es as [|e es IH]; simpl; [reflexivity|].
  destruct (p (exactExpense e)); simpl; now rewrite IH.
Qed.

Lemma sumWhere_all_Qsum (es : list Expense.t) :
  sumWhere (fun _ => true) es == Qsum (map Expense.amount es).
Proof.
  induction es as [|e es IH]; simpl; [reflexivity|]. now rewrite IH.
Qed.







End DoubleTotals.

(* ------------------------------------------------------------------ *)
(** ** Budget spending and the active filter *)
(* ------------------------------------------------------------------ *)

Lemma getSpentAmount_sumWhere (now : Date) (es : list Expense.t) (budget : Budget.t) :
  getSpentAmount now es budget == sumWhere (countsFor now budget) es.
Proof.
  unfold getSpentAmount, countsFor, inWindow, isExpense, newDate.
  destruct (budgetWindow now budget) as [startDate endDate]. simpl fst. simpl snd.
  rewrite reduce_filter_sumWhere.
  apply sumWhere_ext. intros e _. now rewrite !andb_assoc.
Qed.

(** C2 (as the code has it): the window of a budget is the week or the
    month of [now], whatever the filter; the amount shown is the sum over
    the expense-kind transactions of the budget's category in that window
    that the active filter retains; it is the sum over all such
    transactions when the filter retains each of them. *)
Theorem budget_spent_over_filtered_transactions :
  forall (now : Date) (es : list Expense.t) (filters : FilterOptions.t)
         (budget : Budget.t),
    budgetWindow now budget
    = (match Budget.period budget with
       | weekly => (DateFns.startOfWeek now, DateFns.endOfWeek now)
       | monthly => (DateFns.startOfMonth now, DateFns.endOfMonth now)
       end)
    /\ displayedSpentAmount now es filters budget
       == sumWhere (fun e => filterPredicate filters e && countsFor now budget e) es
    /\ ((forall e, In e es -> countsFor now budget e = true ->
                   filterPredicate filters e = true) ->
        displayedSpentAmount now es filters budget
        == sumWhere (countsFor now budget) es).
Proof.
  intros now es filters budget.
  assert (Hsum : displayedSpentAmount now es filters budget
                 == sumWhere (fun e => filterPredicate filters e && countsFor now budget e) es).
  { unfold displayedSpentAmount, filteredExpenses.
    rewrite getSpentAmount_sumWhere. apply sumWhere_filter. }
  split; [|split].
  - unfold budgetWindow. destruct (Budget.period budget); reflexivity.
  - exact Hsum.
  - intros Hkept. rewrite Hsum. apply sumWhere_ext. intros e He.
    destruct (countsFor now budget e) eqn:Hc.
    + rewrite (Hkept e He Hc). reflexivity.
    + apply andb_false_r.
Qed.

(** The budget scenario of the specification: in March, with the March
    filter, a monthly budget of 100 whose category spent 50 + 35. *)
Lemma budget_spent_over_filtered_transactions_witness :
  displayedSpentAmount midMarch marchFood marchFilter foodBudget
  == sumWhere (countsFor midMarch foodBudget) marchFood.
Proof.
  apply (proj2 (proj2 (budget_spent_over_filtered_transactions
                         midMarch marchFood marchFilter foodBudget))).
  intros e [<-|[<-|[]]] _; reflexivity.
Defined.

(** C2 (as stated) fails: with the February filter active in mid-March,
    the amount shown for the budget is 0 although March holds 85 of
    expenses in its category; the February and March filters differ in
    their date range only. *)
Lemma budget_spent_depends_on_filter_range :
  sameButDates februaryFilter marchFilter
  /\ sumWhere (countsFor midMarch foodBudget) marchFood == 85
  /\ displayedSpentAmount midMarch marchFood marchFilter foodBudget == 85
  /\ ~ (displayedSpentAmount midMarch marchFood februaryFilter foodBudget
        == sumWhere (countsFor midMarch foodBudget) marchFood)
  /\ ~ (displayedSpentAmount midMarch marchFood februaryFilter foodBudget
        == displayedSpentAmount midMarch marchFood marchFilter foodBudget).
Proof.
  split; [repeat split|].
  split; [reflexivity|]. split; [reflexivity|].
  split; intros H; vm_compute in H; discriminate.
Qed.

(* ------------------------------------------------------------------ *)
(** ** Summary cards and charts *)
(* ------------------------------------------------------------------ *)

Lemma filter_insert {A} (p : A -> bool) (before after : list A) (e : A) :
  filter p (before ++ e :: after)
  = filter p before ++ (if p e then [e] else []) ++ filter p after.
Proof.
  rewrite filter_app. simpl. destruct (p e); reflexivity.
Qed.

(** X1: the summary cards depend on the collection through the filtered
    list only, each total through the retained transactions of its kind: a
    transaction the filter rejects changes none of total income, total
    expenses and net balance wherever it is inserted, a retained expense
    leaves the total income as it was, and a retained income leaves the
    total expenses as they were. *)
Theorem rejected_transaction_changes_no_total :
  forall (f : FilterOptions.t) (before after : list Expense.t) (e : Expense.t),
    (filterPredicate f e = false ->
       filteredExpenses (before ++ e :: after) f = filteredExpenses (before ++ after) f
       /\ totalIncome (before ++ e :: after) f = totalIncome (before ++ after) f
       /\ totalExpenses (before ++ e :: after) f = totalExpenses (before ++ after) f
       /\ netBalance (before ++ e :: after) f = netBalance (before ++ after) f)
    /\ (Expense.type e = expense ->
          totalIncome (before ++ e :: after) f = totalIncome (before ++ after) f)
    /\ (Expense.type e = income ->
          totalExpenses (before ++ e :: after) f = totalExpenses (before ++ after) f).
Proof.
  intros f before after e. split; [|split].
  - intros Hrej.
    assert (Hsame : filteredExpenses (before ++ e :: after) f
                    = filteredExpenses (before ++ after) f).
    { unfold filteredExpenses. rewrite filter_insert, filter_app. now rewrite Hrej. }
    unfold netBalance, totalIncome, totalExpenses. rewrite Hsame.
    repeat split; reflexivity.
  - intros Htype. unfold totalIncome, filteredExpenses.
    rewrite filter_insert, (filter_app _ before after).
    destruct (filterPredicate f e); [|reflexivity].
    rewrite !filter_app. simpl. now rewrite Htype.
  - intros Htype. unfold totalExpenses, filteredExpenses.
    rewrite filter_insert, (filter_app _ before after).
    destruct (filterPredicate f e); [|reflexivity].
    rewrite !filter_app. simpl. now rewrite Htype.
Qed.

Lemma rejected_transaction_changes_no_total_witness :
  let a := sampleExpense "a" 50 "1" (DateFns.mkDate 2024 3 10) expense in
  let b := sampleExpense "b" 20 "2" (DateFns.mkDate 2024 3 11) income in
  let old := sampleExpense "c" 70 "1" (DateFns.mkDate 2024 1 5) expense in
  filteredExpenses [a; old; b] marchFilter = filteredExpenses [a; b] marchFilter
  /\ totalIncome [a; old; b] marchFilter = totalIncome [a; b] marchFilter
  /\ totalExpenses [a; old; b] marchFilter = totalExpenses [a; b] marchFilter
  /\ netBalance [a; old; b] marchFilter = netBalance [a; b] marchFilter.
Proof.
  intros a b old.
  apply (proj1 (rejected_transaction_changes_no_total marchFilter [a] [b] old)).
  reflexivity.
Defined.

(** X3: the pie chart shows exactly the expense totals of
    [calculateCategoryTotals]: same categories, same order, same values,
    each under the category's name and color. *)
Theorem pie_chart_shows_category_totals :
  forall (es : list Expense.t) (cats : list Category.t),
    categoryData es cats
    = map chartEntry (calculateCategoryTotals es cats (Some expense)).
Proof.
  intros es cats. unfold categoryData, calculateCategoryTotals.
  induction cats as [|c cats IH]; simpl.
  - reflexivity.
  - destruct (JS.gt _ 0); simpl; now rewrite IH.
Qed.

Lemma reduce_sum_positive_nonempty {A} (g : A -> Q) (xs : list A) :
  0 < JS.reduce_sum g xs -> xs <> [].
Proof.
  intros Hpos ->. revert Hpos. apply Qlt_irrefl.
Qed.

Lemma filter_and_length {A} (p q : A -> bool) (xs : list A) :
  (List.length (filter (fun x => p x && q x) xs) <= List.length (filter p xs))%nat.
Proof.
  induction xs as [|x xs IH]; simpl; [lia|].
  destruct (p x), (q x); simpl; lia.
Qed.

(** X4: whatever the kind asked for (or none), every entry of the category
    totals belongs to a category of the list, has a positive total and
    counts at least one transaction and at most the transactions of that
    category; the entries follow the order of the category list. *)
Theorem category_totals_entries :
  forall (es : list Expense.t) (cats : list Category.t) (kind : option ExpenseType),
    let totals := calculateCategoryTotals es cats kind in
    Forall (fun t =>
      In (CategoryTotal.category t) cats
      /\ 0 < CategoryTotal.total t
      /\ (1 <= CategoryTotal.count t)%nat
      /\ (CategoryTotal.count t
          <= List.length (filter (fun e =>
               String.eqb (Expense.categoryId e)
                 (Category.id (CategoryTotal.category t))) es))%nat) totals
    /\ exists keep : Category.t -> bool,
         map CategoryTotal.category totals = filter keep cats.
Proof.
  intros es cats kind totals. split.
  - apply Forall_forall. intros t Ht. unfold totals, calculateCategoryTotals in Ht.
    apply filter_In in Ht. destruct Ht as [Hmap Hgt].
    apply in_map_iff in Hmap. destruct Hmap as (c & <- & Hc).
    simpl in *. apply gt_zero_iff in Hgt.
    split; [exact Hc|]. split; [exact Hgt|]. split.
    + pose proof (reduce_sum_positive_nonempty _ _ Hgt) as Hne.
      destruct (filter _ es); [contradiction | simpl; lia].
    + apply (filter_and_length
               (fun e => String.eqb (Expense.categoryId e) (Category.id c))).
  - exists (fun c =>
      JS.gt (JS.reduce_sum Expense.amount
               (filter (fun e =>
                  String.eqb (Expense.categoryId e) (Category.id c)
                  && match kind with
                     | Some t => ExpenseType_eqb (Expense.type e) t
                     | None => true
                     end) es)) 0).
    unfold totals, calculateCategoryTotals.
    induction cats as [|c cats IH]; simpl; [reflexivity|].
    destruct (JS.gt _ 0); simpl; now rewrite IH.
Qed.

(* ------------------------------------------------------------------ *)
(** ** Filter controls *)
(* ------------------------------------------------------------------ *)

Lemma In_remove_id (cats : list string) (id x : string) :
  In x (filter (fun c => negb (String.eqb c id)) cats) <-> In x cats /\ x <> id.
Proof.
  rewrite filter_In, negb_true_iff, String.eqb_neq. reflexivity.
Qed.

Lemma remove_absent_id (cats : list string) (id : string) :
  ~ In id cats -> filter (fun c => negb (String.eqb c id)) cats = cats.
Proof.
  induction cats as [|c cats IH]; intros Hnot; simpl; [reflexivity|].
  destruct (String.eqb c id) eqn:E.
  - apply String.eqb_eq in E. subst. exfalso. apply Hnot. now left.
  - simpl. rewrite IH; [reflexivity|]. intros H. apply Hnot. now right.
Qed.

(** X5: a click on a category badge flips the selection of that category
    and of no other, keeps a duplicate-free selection duplicate-free and
    leaves the rest of the specification alone; clicking twice on a
    category that was not selected restores the specification. *)
Theorem category_toggle_flips_one :
  forall (id : string) (f : FilterOptions.t),
    let f' := handleCategoryToggle id f in
    (In id (FilterOptions.categories f') <-> ~ In id (FilterOptions.categories f))
    /\ (forall x, x <> id ->
          (In x (FilterOptions.categories f') <-> In x (FilterOptions.categories f)))
    /\ (NoDup (FilterOptions.categories f) -> NoDup (FilterOptions.categories f'))
    /\ withCategories f' (FilterOptions.categories f) = f
    /\ (~ In id (FilterOptions.categories f) -> handleCategoryToggle id f' = f).
Proof.
  intros id f f'. unfold f', handleCategoryToggle.
  destruct f as [sd ed cats mn mx ty]. simpl.
  destruct (JS.includes cats id) eqn:Hinc.
  - apply includes_In in Hinc. simpl.
    split; [|split; [|split; [|split]]].
    + rewrite In_remove_id. tauto.
    + intros x Hx. rewrite In_remove_id. tauto.
    + intros Hnd. now apply NoDup_filter.
    + reflexivity.
    + intros Hnot. contradiction.
  - assert (Hnot : ~ In id cats).
    { intros H. apply includes_In in H. congruence. }
    simpl. split; [|split; [|split; [|split]]].
    + rewrite in_app_iff. simpl. tauto.
    + intros x Hx. rewrite in_app_iff. simpl. split; [|tauto].
      intros [H|[H|[]]]; [exact H | congruence].
    + intros Hnd. apply NoDup_app; [exact Hnd | repeat constructor; intros [] |].
      intros x Hx [<-|[]]. contradiction.
    + reflexivity.
    + intros _.
      assert (Hnow : JS.includes (cats ++ [id]) id = true).
      { apply includes_In. apply in_or_app. right. now left. }
      rewrite Hnow. unfold withCategories. simpl. f_equal.
      rewrite filter_app, remove_absent_id by exact Hnot.
      simpl. rewrite String.eqb_refl. simpl. apply app_nil_r.
Qed.

Lemma category_toggle_flips_one_witness :
  handleCategoryToggle "2" (handleCategoryToggle "2" marchFilter) = marchFilter.
Proof.
  apply (category_toggle_flips_one "2" marchFilter). simpl. tauto.
Defined.

Lemma filter_and {A} (p q : A -> bool) (xs : list A) :
  filter (fun x => q x && p x) xs = filter q (filter p xs).
Proof.
  induction xs as [|x xs IH]; simpl; [reflexivity|].
  destruct (p x) eqn:Hp, (q x) eqn:Hq; simpl; rewrite ?Hq, IH; reflexivity.
Qed.

Lemma toggle_unselected (id : string) (f : FilterOptions.t) :
  ~ In id (FilterOptions.categories f) ->
  FilterOptions.categories (handleCategoryToggle id f)
  = FilterOptions.categories f ++ [id].
Proof.
  intros Hnot. unfold handleCategoryToggle.
  destruct (JS.includes (FilterOptions.categories f) id) eqn:Hinc; [|reflexivity].
  apply includes_In in Hinc. contradiction.
Qed.

(** X6: selecting a first category narrows the result to the transactions
    of that category, while selecting one more category on top of a
    non-empty selection only adds transactions. *)
Theorem category_selection_narrows_then_widens :
  forall (es : list Expense.t) (id : string) (f : FilterOptions.t),
    (FilterOptions.categories f = [] ->
       filteredExpenses es (handleCategoryToggle id f)
       = filter (fun e => String.eqb (Expense.categoryId e) id) (filteredExpenses es f))
    /\ (FilterOptions.categories f <> [] ->
        ~ In id (FilterOptions.categories f) ->
        forall e, In e (filteredExpenses es f) ->
                  In e (filteredExpenses es (handleCategoryToggle id f))).
Proof.
  intros es id f. split.
  - intros Hnil.
    assert (Hcat : forall e, categoryMatch f e = true).
    { intros e. apply categoryMatch_iff. now left. }
    assert (Hcat' : forall e, categoryMatch (handleCategoryToggle id f) e
                              = String.eqb (Expense.categoryId e) id).
    { intros e. unfold categoryMatch, handleCategoryToggle. rewrite Hnil. simpl.
      apply orb_false_r. }
    unfold filteredExpenses. rewrite <- filter_and. apply filter_ext. intros e.
    unfold filterPredicate.
    change (dateInRange (handleCategoryToggle id f) e) with (dateInRange f e).
    change (amountMatch (handleCategoryToggle id f) e) with (amountMatch f e).
    change (typeMatch (handleCategoryToggle id f) e) with (typeMatch f e).
    rewrite Hcat, Hcat'.
    destruct (dateInRange f e), (String.eqb (Expense.categoryId e) id),
      (amountMatch f e), (typeMatch f e); reflexivity.
  - intros Hne Hnot e He. unfold filteredExpenses in *.
    apply filter_In in He. destruct He as [Hin Hp].
    apply filter_In. split; [exact Hin|].
    apply filterPredicate_iff in Hp. apply filterPredicate_iff.
    destruct Hp as (Hr & Hc & Hmin & Hmax & Ht).
    split; [exact Hr|]. split; [|split; [exact Hmin|split; [exact Hmax|exact Ht]]].
    destruct Hc as [Hc|Hc]; [contradiction|].
    right. rewrite toggle_unselected by exact Hnot.
    apply in_or_app. now left.
Qed.

Lemma category_selection_narrows_then_widens_witness :
  let a := sampleExpense "a" 50 "1" (DateFns.mkDate 2024 3 10) expense in
  let b := sampleExpense "b" 20 "2" (DateFns.mkDate 2024 3 11) income in
  filteredExpenses [a; b] (handleCategoryToggle "2" marchFilter)
  = filter (fun e => String.eqb (Expense.categoryId e) "2")
      (filteredExpenses [a; b] marchFilter).
Proof.
  intros a b.
  apply (proj1 (category_selection_narrows_then_widens [a; b] "2" marchFilter)).
  reflexivity.
Defined.

(** X7: after "Clear Filters" the transactions shown are exactly those
    dated within the range, which the button keeps; an emptied amount
    field unsets its bound and then restricts nothing. *)
Theorem clear_filters_keeps_date_range_only :
  forall (parseFloat : string -> JS.number) (es : list Expense.t) (f : FilterOptions.t),
    filteredExpenses es (clearFilters f) = filter (dateInRange f) es
    /\ clearFilters (clearFilters f) = clearFilters f
    /\ filteredExpenses es
         (setMinAmount parseFloat EmptyString (setMaxAmount parseFloat EmptyString f))
       = filter (fun e => dateInRange f e && categoryMatch f e && typeMatch f e) es.
Proof.
  intros parseFloat es f. split; [|split].
  - unfold filteredExpenses. apply filter_ext. intros e.
    unfold filterPredicate.
    change (dateInRange (clearFilters f) e) with (dateInRange f e).
    now rewrite !andb_true_r.
  - reflexivity.
  - unfold filteredExpenses. apply filter_ext. intros e.
    unfold filterPredicate.
    destruct (dateInRange _ e) eqn:Hd, (categoryMatch _ e) eqn:Hc, (typeMatch _ e) eqn:Ht;
      unfold dateInRange, categoryMatch, typeMatch in *; simpl in *;
      rewrite ?Hd, ?Hc, ?Ht; reflexivity.
Qed.

(* ------------------------------------------------------------------ *)
(** ** The budget form and the budget collection *)
(* ------------------------------------------------------------------ *)

Lemma find_key_none (formData : FormData.t) (budgets : list Budget.t) :
  JS.find (fun budget =>
    String.eqb (Budget.categoryId budget) (FormData.categoryId formData)
    && Period_eqb (Budget.period budget) (FormData.period formData)) budgets = None ->
  ~ In (FormData.categoryId formData, FormData.period formData) (map budgetKey budgets).
Proof.
  intros Hfind Hin. apply in_map_iff in Hin. destruct Hin as (b & Hkey & Hb).
  unfold JS.find in Hfind. pose proof (find_none _ _ Hfind b Hb) as Hno.
  unfold budgetKey in Hkey. injection Hkey as Hc Hp. simpl in Hno.
  rewrite Hc, Hp, String.eqb_refl in Hno.
  assert (Ht : Period_eqb (FormData.period formData) (FormData.period formData) = true)
    by now apply Period_eqb_eq.
  rewrite Ht in Hno. discriminate.
Qed.

Lemma NoDup_snoc {A} (xs : list A) (x : A) :
  NoDup xs -> ~ In x xs -> NoDup (xs ++ [x]).
Proof.
  intros Hnd Hnot. apply NoDup_app.
  - exact Hnd.
  - constructor; [intros [] | constructor].
  - intros y Hy [<-|[]]. contradiction.
Qed.

(** X8: in create mode the form keeps the invariant "at most one budget
    per (category, period) pair": whatever the form holds, a submit leaves
    the pairs of the collection pairwise distinct if they were. *)
Theorem create_keeps_budget_pairs_unique :
  forall (parseFloat : string -> JS.number) (categories : list Category.t)
         (now : Date) (st : BudgetTracker.State),
    BudgetTracker.editingBudget st = None ->
    uniqueKeys (BudgetTracker.budgets st) ->
    uniqueKeys (BudgetTracker.budgets (fst (handleSubmit parseFloat categories now st))).
Proof.
  intros parseFloat categories now st Hcreate Huniq. unfold handleSubmit.
  destruct (_ || _); [exact Huniq|].
  destruct (JS.le _ 0); [exact Huniq|].
  rewrite Hcreate.
  destruct (JS.find _ (BudgetTracker.budgets st)) eqn:Hfind; [exact Huniq|].
  simpl. unfold uniqueKeys. rewrite map_app. simpl.
  apply NoDup_snoc; [exact Huniq|].
  apply find_key_none in Hfind. exact Hfind.
Qed.

Lemma create_keeps_budget_pairs_unique_witness :
  let st := BudgetTracker.mk [foodMonthly; rentMonthly] true None
              (FormData.mk "1" "40" weekly) in
  uniqueKeys (BudgetTracker.budgets (fst (handleSubmit parseDecimal [] 1710000000000%Z st))).
Proof.
  intros st.
  apply (create_keeps_budget_pairs_unique parseDecimal [] 1710000000000%Z st).
  - reflexivity.
  - unfold uniqueKeys. simpl. constructor.
    + intros [H|[]]. discriminate.
    + constructor; [intros [] | constructor].
Defined.

(** X9: a submit with no category, no amount, or an amount that is not
    positive changes nothing, when adding and when editing alike, and
    raises one destructive "Error" notice. *)
Theorem invalid_budget_form_changes_nothing :
  forall (parseFloat : string -> JS.number) (categories : list Category.t)
         (now : Date) (st : BudgetTracker.State),
    ~ formValid parseFloat (BudgetTracker.formData st) ->
    fst (handleSubmit parseFloat categories now st) = st
    /\ exists notice,
         snd (handleSubmit parseFloat categories now st) = [notice]
         /\ Toast.title notice = "Error"%string
         /\ Toast.variant notice = destructive.
Proof.
  intros parseFloat categories now st Hinvalid. unfold handleSubmit.
  destruct (String.eqb (FormData.categoryId _) EmptyString) eqn:Hc; simpl.
  { split; [reflexivity|]. eexists. repeat split. }
  destruct (String.eqb (FormData.amount _) EmptyString) eqn:Ha; simpl.
  { split; [reflexivity|]. eexists. repeat split. }
  destruct (JS.le _ 0) eqn:Hle.
  { split; [reflexivity|]. eexists. repeat split. }
  exfalso. apply Hinvalid. unfold formValid.
  apply String.eqb_neq in Hc. apply String.eqb_neq in Ha.
  unfold JS.le in Hle. q_tests. auto.
Qed.

Lemma invalid_budget_form_changes_nothing_witness :
  let st := BudgetTracker.mk [foodMonthly] true None (FormData.mk "9" "-5" monthly) in
  fst (handleSubmit parseDecimal [] 1710000000000%Z st) = st
  /\ exists notice,
       snd (handleSubmit parseDecimal [] 1710000000000%Z st) = [notice]
       /\ Toast.title notice = "Error"%string
       /\ Toast.variant notice = destructive.
Proof.
  intros st.
  apply (invalid_budget_form_changes_nothing parseDecimal [] 1710000000000%Z st).
  intros (_ & _ & Hpos). vm_compute in Hpos. discriminate.
Defined.




Lemma NoDup_map_filter {A B} (g : A -> B) (p : A -> bool) (xs : list A) :
  NoDup (map g xs) -> NoDup (map g (filter p xs)).
Proof.
  induction xs as [|x xs IH]; intros Hnd; simpl; [constructor|].
  inversion Hnd as [|y ys Hnotin Hnd']; subst.
  destruct (p x); simpl; [|now apply IH].
  constructor; [|now apply IH].
  intros Hin. apply Hnotin. apply in_map_iff in Hin.
  destruct Hin as (z & Hz & Hzin). apply filter_In in Hzin.
  apply in_map_iff. exists z. tauto.
Qed.

(** X11: deleting a budget by an identifier that no budget carries does
    nothing and raises no notice; otherwise every budget with that
    identifier goes, the others stay, one destructive notice is raised;
    in both cases distinct (category, period) pairs stay distinct. *)
Theorem delete_budget_by_id :
  forall (categories : list Category.t) (budgetId : string) (st : BudgetTracker.State),
    let result := handleDelete categories budgetId st in
    ((forall b, In b (BudgetTracker.budgets st) -> Budget.id b <> budgetId) ->
       result = (st, []))
    /\ ((exists b, In b (BudgetTracker.budgets st) /\ Budget.id b = budgetId) ->
        exists notice,
          snd result = [notice]
          /\ Toast.title notice = "Budget Deleted"%string
          /\ Toast.variant notice = destructive)
    /\ (forall b, In b (BudgetTracker.budgets (fst result))
                  <-> In b (BudgetTracker.budgets st) /\ Budget.id b <> budgetId)
    /\ (uniqueKeys (BudgetTracker.budgets st) ->
        uniqueKeys (BudgetTracker.budgets (fst result))).
Proof.
  intros categories budgetId st result. unfold result, handleDelete, JS.find.
  destruct (List.find _ (BudgetTracker.budgets st)) as [found|] eqn:Hfind.
  - apply find_some in Hfind. destruct Hfind as [Hin Hid]. apply String.eqb_eq in Hid.
    split; [|split; [|split]].
    + intros Hnone. exfalso. now apply (Hnone found Hin).
    + intros _. eexists. repeat split.
    + intros b. simpl. rewrite filter_In, negb_true_iff, String.eqb_neq. reflexivity.
    + intros Huniq. simpl. now apply NoDup_map_filter.
  - split; [|split; [|split]].
    + reflexivity.
    + intros (b & Hb & Hid). pose proof (find_none _ _ Hfind b Hb) as Hno.
      simpl in Hno. rewrite Hid, String.eqb_refl in Hno. discriminate.
    + intros b. simpl. split; [|tauto]. intros Hb. split; [exact Hb|].
      pose proof (find_none _ _ Hfind b Hb) as Hno. simpl in Hno.
      now apply String.eqb_neq.
    + intros Huniq. exact Huniq.
Qed.

Lemma delete_budget_by_id_witness :
  let st := BudgetTracker.mk [foodMonthly; rentMonthly] false None FormData.empty in
  handleDelete [] "300" st = (st, [])
  /\ BudgetTracker.budgets (fst (handleDelete [] "100" st)) = [rentMonthly].
Proof.
  intros st. split.
  - apply (delete_budget_by_id [] "300" st).
    intros b [<-|[<-|[]]]; discriminate.
  - reflexivity.
Defined.

(** X12: an edit made through the form (open it on a budget, change the
    amount, submit) changes amounts only: provided the budgets sharing the
    edited identifier share its (category, period) pair, every budget keeps
    its identifier, creation time and pair, budgets with another identifier
    are unchanged, and distinct pairs stay distinct. *)
Theorem edit_through_form_changes_amount_only :
  forall (parseFloat : string -> JS.number) (numberToString : JS.number -> string)
         (categories : list Category.t) (now : Date) (st : BudgetTracker.State)
         (budget : Budget.t) (value : string),
    (forall b, In b (BudgetTracker.budgets st) ->
               Budget.id b = Budget.id budget -> budgetKey b = budgetKey budget) ->
    formValid parseFloat
      (BudgetTracker.formData (setAmount value (handleEdit numberToString budget st))) ->
    let after :=
      BudgetTracker.budgets
        (fst (handleSubmit parseFloat categories now
                (setAmount value (handleEdit numberToString budget st)))) in
    map budgetKey after = map budgetKey (BudgetTracker.budgets st)
    /\ map Budget.id after = map Budget.id (BudgetTracker.budgets st)
    /\ map Budget.createdAt after = map Budget.createdAt (BudgetTracker.budgets st)
    /\ (forall b, In b after -> Budget.id b = Budget.id budget ->
                  Budget.amount b = parseFloat value)
    /\ (forall i b, nth_error (BudgetTracker.budgets st) i = Some b ->
                    Budget.id b <> Budget.id budget -> nth_error after i = Some b)
    /\ (uniqueKeys (BudgetTracker.budgets st) -> uniqueKeys after).
Proof.
  intros parseFloat numberToString categories now st budget value Hshared Hvalid after.
  unfold after. rewrite (submit_edited_amount _ _ _ _ _ _ _ Hvalid).
  set (budgets := BudgetTracker.budgets st) in *.
  assert (Hkeys : map budgetKey
                    (map (fun b =>
                       if String.eqb (Budget.id b) (Budget.id budget)
                       then Budget.mk (Budget.id b) (Budget.categoryId budget)
                              (parseFloat value) (Budget.period budget) (Budget.createdAt b)
                       else b) budgets) = map budgetKey budgets).
  { rewrite map_map. apply map_ext_in. intros b Hb.
    destruct (String.eqb (Budget.id b) (Budget.id budget)) eqn:E; [|reflexivity].
    apply String.eqb_eq in E. symmetry. exact (Hshared b Hb E). }
  split; [exact Hkeys|]. split; [|split; [|split; [|split]]].
  - rewrite map_map. apply map_ext. intros b.
    destruct (String.eqb (Budget.id b) (Budget.id budget)); reflexivity.
  - rewrite map_map. apply map_ext. intros b.
    destruct (String.eqb (Budget.id b) (Budget.id budget)); reflexivity.
  - intros b Hb Hid. apply in_map_iff in Hb. destruct Hb as (b0 & Hb0 & _).
    destruct (String.eqb (Budget.id b0) (Budget.id budget)) eqn:E.
    + now subst b.
    + subst b. apply String.eqb_neq in E. contradiction.
  - intros i b Hnth Hid. rewrite nth_error_map, Hnth. simpl.
    apply String.eqb_neq in Hid. now rewrite Hid.
  - unfold uniqueKeys. now rewrite Hkeys.
Qed.

Lemma edit_through_form_changes_amount_only_witness :
  let st := BudgetTracker.mk [foodMonthly; rentMonthly] false None FormData.empty in
  let after :=
    BudgetTracker.budgets
      (fst (handleSubmit parseDecimal [] 1710000000000%Z
              (setAmount "950" (handleEdit (fun _ => "900"%string) rentMonthly st)))) in
  map budgetKey after = map budgetKey [foodMonthly; rentMonthly]
  /\ map Budget.amount after = [200; parseDecimal "950"].
Proof.
  intros st after. split; [|reflexivity].
  apply (edit_through_form_changes_amount_only parseDecimal (fun _ => "900"%string) []
           1710000000000%Z st rentMonthly "950").
  - intros b [<-|[<-|[]]] Hid; [discriminate | reflexivity].
  - repeat split; try discriminate.
Defined.

(* ------------------------------------------------------------------ *)
(** ** Categories: form, deletion and dangling references *)
(* ------------------------------------------------------------------ *)

(** Whether a category carried the identifier or not, the categories left
    after a delete are those with another identifier. *)
Lemma category_delete_categories (categoryId : string) (st : CategoryManager.State) :
  CategoryManager.categories (fst (CategoryManager.handleDelete categoryId st))
  = filter (fun cat => negb (String.eqb (Category.id cat) categoryId))
      (CategoryManager.categories st).
Proof.
  unfold CategoryManager.handleDelete, JS.find.
  destruct (List.find _ (CategoryManager.categories st)) eqn:Hfind; [reflexivity|].
  simpl. symmetry. apply forallb_filter_id. apply forallb_forall.
  intros c Hc. pose proof (find_none _ _ Hfind c Hc) as Hno. simpl in Hno.
  now rewrite Hno.
Qed.

Lemma getCategoryName_filter (keep : Category.t -> bool) (cats : list Category.t)
    (x : string) :
  (forall c, Category.id c = x -> keep c = true) ->
  getCategoryName (filter keep cats) x = getCategoryName cats x.
Proof.
  intros Hkeep. unfold getCategoryName, JS.find.
  induction cats as [|c cats IH]; simpl; [reflexivity|].
  destruct (String.eqb (Category.id c) x) eqn:E.
  - apply String.eqb_eq in E. rewrite (Hkeep c E). simpl.
    apply String.eqb_eq in E. now rewrite E.
  - destruct (keep c); simpl; [rewrite E|]; exact IH.
Qed.

Lemma category_totals_filter (keep : Category.t -> bool) (es : list Expense.t)
    (cats : list Category.t) (kind : option ExpenseType) :
  calculateCategoryTotals es (filter keep cats) kind
  = filter (fun t => keep (CategoryTotal.category t))
      (calculateCategoryTotals es cats kind).
Proof.
  unfold calculateCategoryTotals.
  induction cats as [|c cats IH]; simpl; [reflexivity|].
  destruct (keep c) eqn:Hk; simpl.
  - destruct (JS.gt _ 0); simpl; rewrite ?Hk, IH; reflexivity.
  - destruct (JS.gt _ 0); simpl; rewrite ?Hk, IH; reflexivity.
Qed.

(** X13: deleting a category does not touch what refers to it: afterwards
    its identifier resolves to the fallback name "Unknown", every other
    identifier resolves as before, and the category totals are the former
    ones without the entries of the deleted category. *)
Theorem deleted_category_resolves_to_unknown :
  forall (categoryId : string) (st : CategoryManager.State),
    let before := CategoryManager.categories st in
    let after := CategoryManager.categories
                   (fst (CategoryManager.handleDelete categoryId st)) in
    getCategoryName after categoryId = "Unknown"%string
    /\ (forall x, x <> categoryId -> getCategoryName after x = getCategoryName before x)
    /\ (forall (es : list Expense.t) (kind : option ExpenseType),
          calculateCategoryTotals es after kind
          = filter (fun t =>
              negb (String.eqb (Category.id (CategoryTotal.category t)) categoryId))
              (calculateCategoryTotals es before kind)).
Proof.
  intros categoryId st before after.
  unfold after. rewrite category_delete_categories. fold before.
  split; [|split].
  - unfold getCategoryName, JS.find.
    destruct (List.find _ (filter _ before)) as [c|] eqn:Hfind; [|reflexivity].
    apply find_some in Hfind. destruct Hfind as [Hin Hid].
    apply filter_In in Hin. destruct Hin as [_ Hkeep].
    rewrite Hid in Hkeep. discriminate.
  - intros x Hx. apply getCategoryName_filter.
    intros c Hc. apply negb_true_iff. apply String.eqb_neq. congruence.
  - intros es kind.
    apply (category_totals_filter
             (fun cat => negb (String.eqb (Category.id cat) categoryId))).
Qed.

Lemma deleted_category_resolves_to_unknown_witness :
  let food := Category.mk "1" "Food" "#ef4444" "F" in
  let fuel := Category.mk "2" "Fuel" "#f97316" "T" in
  let st := CategoryManager.mk [food; fuel] false None CategoryForm.empty in
  let after := CategoryManager.categories (fst (CategoryManager.handleDelete "1" st)) in
  getCategoryName after "2" = getCategoryName [food; fuel] "2".
Proof.
  intros food fuel st after.
  apply (proj1 (proj2 (deleted_category_resolves_to_unknown "1" st))).
  discriminate.
Defined.

(** X14: the category form refuses a name that is blank once trimmed and
    changes nothing; otherwise it stores the name as typed: when adding,
    one category is appended with the current time as identifier; when
    editing, identifiers, order and number of categories are kept and
    only categories with the edited identifier change. *)
Theorem category_form_submit :
  forall (trim : string -> string) (now : Date) (st : CategoryManager.State),
    let form := CategoryManager.formData st in
    let result := CategoryManager.handleSubmit trim now st in
    (trim (CategoryForm.name form) = EmptyString ->
       fst result = st
       /\ exists notice, snd result = [notice] /\ Toast.variant notice = destructive)
    /\ (trim (CategoryForm.name form) <> EmptyString ->
        CategoryManager.editingCategory st = None ->
        CategoryManager.categories (fst result)
        = CategoryManager.categories st
          ++ [Category.mk (JS.toString now) (CategoryForm.name form)
                (CategoryForm.color form) (CategoryForm.icon form)])
    /\ (trim (CategoryForm.name form) <> EmptyString ->
        forall editing, CategoryManager.editingCategory st = Some editing ->
          map Category.id (CategoryManager.categories (fst result))
          = map Category.id (CategoryManager.categories st)
          /\ forall i c, nth_error (CategoryManager.categories st) i = Some c ->
               nth_error (CategoryManager.categories (fst result)) i
               = Some (if String.eqb (Category.id c) (Category.id editing)
                       then Category.mk (Category.id c) (CategoryForm.name form)
                              (CategoryForm.color form) (CategoryForm.icon form)
                       else c)).
Proof.
  intros trim now st form result. unfold result, CategoryManager.handleSubmit. fold form.
  split; [|split].
  - intros Hblank. rewrite Hblank. simpl. split; [reflexivity|].
    eexists. split; reflexivity.
  - intros Hname Hadd. apply String.eqb_neq in Hname. rewrite Hname, Hadd. reflexivity.
  - intros Hname editing Hedit. apply String.eqb_neq in Hname. rewrite Hname, Hedit.
    simpl. split.
    + rewrite map_map. apply map_ext. intros c.
      destruct (String.eqb (Category.id c) (Category.id editing)); reflexivity.
    + intros i c Hnth. rewrite nth_error_map, Hnth. reflexivity.
Qed.

Lemma category_form_submit_witness :
  let st := CategoryManager.mk [Category.mk "1" "Food" "#ef4444" "F"] true None
              (CategoryForm.mk " Pets " "#22c55e" "P") in
  CategoryManager.categories (fst (CategoryManager.handleSubmit (fun s => s) 5%Z st))
  = [Category.mk "1" "Food" "#ef4444" "F"; Category.mk "5" " Pets " "#22c55e" "P"].
Proof.
  intros st.
  apply (proj1 (proj2 (category_form_submit (fun s => s) 5%Z st))).
  - discriminate.
  - reflexivity.
Defined.

(* ------------------------------------------------------------------ *)
(** ** Transaction table: search and sort *)
(* ------------------------------------------------------------------ *)

Section Sorting.

Context {A : Type} (cmp : A -> A -> Z).

Lemma insertBy_perm (x : A) (xs : list A) :
  Permutation (ExpenseList.insertBy cmp x xs) (x :: xs).
Proof.
  induction xs as [|y xs IH]; simpl.
  - apply Permutation_refl.
  - destruct (cmp x y <=? 0)%Z.
    + apply Permutation_refl.
    + apply perm_trans with (y :: x :: xs).
      * now apply perm_skip.
      * apply perm_swap.
Qed.

Lemma sortBy_perm (xs : list A) : Permutation (ExpenseList.sortBy cmp xs) xs.
Proof.
  induction xs as [|x xs IH]; simpl.
  - apply perm_nil.
  - apply perm_trans with (x :: ExpenseList.sortBy cmp xs).
    + apply insertBy_perm.
    + now apply perm_skip.
Qed.

(** The comparator puts any two elements in order one way or the other. *)
Hypothesis cmp_total : forall a b, (cmp a b <= 0)%Z \/ (cmp b a <= 0)%Z.

Lemma insertBy_sorted (x : A) (xs : list A) :
  Sorted (fun a b => (cmp a b <= 0)%Z) xs ->
  Sorted (fun a b => (cmp a b <= 0)%Z) (ExpenseList.insertBy cmp x xs).
Proof.
  induction xs as [|y xs IH]; intros Hs; simpl.
  - repeat constructor.
  - destruct (Z.leb_spec (cmp x y) 0) as [Hle|Hgt].
    + constructor; [exact Hs | constructor; exact Hle].
    + inversion Hs as [|y' xs' Hs' Hhd]; subst.
      constructor; [now apply IH|].
      destruct xs as [|z xs]; simpl.
      * constructor. destruct (cmp_total y x); [assumption | lia].
      * destruct (cmp x z <=? 0)%Z.
        -- constructor. destruct (cmp_total y x); [assumption | lia].
        -- constructor. inversion Hhd; assumption.
Qed.

Lemma sortBy_sorted (xs : list A) :
  Sorted (fun a b => (cmp a b <= 0)%Z) (ExpenseList.sortBy cmp xs).
Proof.
  induction xs as [|x xs IH]; simpl.
  - constructor.
  - now apply insertBy_sorted.
Qed.

End Sorting.

Lemma Sorted_impl {A} (R S : A -> A -> Prop) (xs : list A) :
  (forall a b, R a b -> S a b) -> Sorted R xs -> Sorted S xs.
Proof.
  intros Himp Hs. induction Hs as [|x xs Hs IH Hhd]; constructor.
  - exact IH.
  - destruct Hhd; constructor. now apply Himp.
Qed.

Lemma string_ltb_asym (a b : string) : String.ltb a b = true -> String.ltb b a = false.
Proof.
  unfold String.ltb. rewrite (String.compare_antisym a b).
  destruct (String.compare b a); simpl; congruence.
Qed.

Lemma directed_le_iff (d : ExpenseList.SortDirection) (lt gt : bool) :
  (lt = true -> gt = false) ->
  ((ExpenseList.directed d lt gt <= 0)%Z
   <-> match d with
       | ExpenseList.asc => gt = false
       | ExpenseList.desc => lt = false
       end).
Proof.
  intros Hasym. destruct d, lt, gt; simpl; try (specialize (Hasym eq_refl));
    split; intros; try lia; try congruence.
Qed.

Lemma compareExpenses_le_iff (cats : list Category.t) (field : ExpenseList.SortField)
    (d : ExpenseList.SortDirection) (a b : Expense.t) :
  (ExpenseList.compareExpenses cats field d a b <= 0)%Z
  <-> ExpenseList.inOrder cats field d a b.
Proof.
  unfold ExpenseList.compareExpenses, ExpenseList.inOrder, ExpenseList.keyLe, newDate.
  destruct field.
  - rewrite directed_le_iff by (rewrite !Z.ltb_lt; intros; apply Z.ltb_ge; lia).
    destruct d; rewrite Z.ltb_ge; reflexivity.
  - rewrite directed_le_iff.
    + destruct d; unfold JS.gt; rewrite negb_false_iff, Qle_bool_iff; reflexivity.
    + unfold JS.gt. rewrite negb_true_iff, negb_false_iff. intros H. q_tests.
      apply Qle_bool_iff. now apply Qlt_le_weak.
  - rewrite directed_le_iff by apply string_ltb_asym.
    destruct d; reflexivity.
Qed.

Lemma compareExpenses_total (cats : list Category.t) (field : ExpenseList.SortField)
    (d : ExpenseList.SortDirection) (a b : Expense.t) :
  (ExpenseList.compareExpenses cats field d a b <= 0)%Z
  \/ (ExpenseList.compareExpenses cats field d b a <= 0)%Z.
Proof.
  rewrite !compareExpenses_le_iff.
  unfold ExpenseList.inOrder, ExpenseList.keyLe.
  destruct d, field; try lia.
  - destruct (Qlt_le_dec (Expense.amount b) (Expense.amount a)) as [H|H];
      [right; now apply Qlt_le_weak | now left].
  - destruct (String.ltb (getCategoryName cats (Expense.categoryId b))
                (getCategoryName cats (Expense.categoryId a))) eqn:E;
      [right; now apply string_ltb_asym | now left].
  - destruct (Qlt_le_dec (Expense.amount b) (Expense.amount a)) as [H|H];
      [left; now apply Qlt_le_weak | now right].
  - destruct (String.ltb (getCategoryName cats (Expense.categoryId b))
                (getCategoryName cats (Expense.categoryId a))) eqn:E;
      [left; now apply string_ltb_asym | now right].
Qed.

(** X15: the table lists the transactions that pass the search, each as
    often as it passed, arranged so that every row is in order with the
    next one for the chosen column and direction: by date, by amount, or
    by resolved category name. *)
Theorem table_is_sorted_search_result :
  forall (toLowerCase : string -> string) (cats : list Category.t) (term : string)
         (field : ExpenseList.SortField) (d : ExpenseList.SortDirection)
         (es : list Expense.t),
    let shown := ExpenseList.sortedExpenses toLowerCase cats term field d es in
    Permutation shown (ExpenseList.filteredExpenses toLowerCase cats term es)
    /\ Sorted (ExpenseList.inOrder cats field d) shown
    /\ (forall e, In e shown -> In e es).
Proof.
  intros toLowerCase cats term field d es shown. unfold shown, ExpenseList.sortedExpenses.
  split; [apply sortBy_perm|]. split.
  - apply Sorted_impl with
      (R := fun a b => (ExpenseList.compareExpenses cats field d a b <= 0)%Z).
    + intros a b. apply compareExpenses_le_iff.
    + apply sortBy_sorted. apply compareExpenses_total.
  - intros e He.
    apply (Permutation_in _ (sortBy_perm _ _)) in He.
    unfold ExpenseList.filteredExpenses in He. apply filter_In in He. tauto.
Qed.

Lemma includes_empty (s : string) : ExpenseList.includes s EmptyString = true.
Proof. destruct s; reflexivity. Qed.

(** X16: with an empty search box nothing is hidden: the table lists every
    transaction it was given, each once per occurrence. *)
Theorem empty_search_lists_everything :
  forall (toLowerCase : string -> string) (cats : list Category.t)
         (field : ExpenseList.SortField) (d : ExpenseList.SortDirection)
         (es : list Expense.t),
    toLowerCase EmptyString = EmptyString ->
    ExpenseList.filteredExpenses toLowerCase cats EmptyString es = es
    /\ Permutation (ExpenseList.sortedExpenses toLowerCase cats EmptyString field d es) es.
Proof.
  intros toLowerCase cats field d es Hlower.
  assert (Hall : ExpenseList.filteredExpenses toLowerCase cats EmptyString es = es).
  { unfold ExpenseList.filteredExpenses. apply forallb_filter_id. apply forallb_forall.
    intros e _. rewrite Hlower, includes_empty. reflexivity. }
  split; [exact Hall|].
  unfold ExpenseList.sortedExpenses. rewrite Hall. apply sortBy_perm.
Qed.

Lemma empty_search_lists_everything_witness :
  let a := sampleExpense "a" 50 "1" (DateFns.mkDate 2024 3 10) expense in
  let b := sampleExpense "b" 20 "2" (DateFns.mkDate 2024 3 11) income in
  ExpenseList.filteredExpenses (fun s => s) [] EmptyString [a; b] = [a; b]
  /\ Permutation
       (ExpenseList.sortedExpenses (fun s => s) [] EmptyString
          ExpenseList.date ExpenseList.desc [a; b]) [a; b].
Proof.
  intros a b.
  apply (empty_search_lists_everything (fun s => s) [] ExpenseList.date ExpenseList.desc
           [a; b]).
  reflexivity.
Defined.

Example table_sort_ex :
  let a := sampleExpense "a" 50 "1" (DateFns.mkDate 2024 3 10) expense in
  let b := sampleExpense "b" 20 "2" (DateFns.mkDate 2024 3 11) income in
  let c := sampleExpense "c" 20 "1" (DateFns.mkDate 2024 3 9) expense in
  ExpenseList.sortedExpenses (fun s => s) [] EmptyString
    ExpenseList.date ExpenseList.desc [a; b; c] = [b; a; c]
  /\ ExpenseList.sortedExpenses (fun s => s) [] EmptyString
       ExpenseList.amount ExpenseList.asc [a; b; c] = [b; c; a].
Proof. split; reflexivity. Qed.

(* ------------------------------------------------------------------ *)
(** ** Submitting the transaction form *)
(* ------------------------------------------------------------------ *)

(** X17: a submit of the transaction form without an amount or without a
    category changes nothing and raises no notice.  Otherwise, when no
    transaction is being edited, exactly one transaction built from the
    form is put in front of the others and the form is closed; when one is
    being edited, the number of transactions is kept, only those with its
    identifier change, and the edit ends. *)
Theorem transaction_form_submit :
  forall (parseFloat : string -> JS.number) (numberToString : JS.number -> string)
         (now : Date) (form : ExpenseForm.FormData) (st : Index.State),
    let result := submitExpenseForm parseFloat numberToString now form st in
    let data := ExpenseData.mk (parseFloat (ExpenseForm.amount form))
                  (ExpenseForm.categoryId form) (ExpenseForm.description form)
                  (ExpenseForm.date form) (ExpenseForm.type form) in
    (ExpenseForm.amount form = EmptyString \/ ExpenseForm.categoryId form = EmptyString ->
       result = (st, []))
    /\ (ExpenseForm.amount form <> EmptyString ->
        ExpenseForm.categoryId form <> EmptyString ->
        (Index.editingExpense st = None ->
           Index.expenses (fst result)
           = Expense.mk (JS.toString now) (ExpenseData.amount data)
               (ExpenseData.categoryId data) (ExpenseData.description data)
               (ExpenseData.date data) (ExpenseData.type data) now
             :: Index.expenses st
           /\ Index.isFormOpen (fst result) = false)
        /\ (forall editing, Index.editingExpense st = Some editing ->
              List.length (Index.expenses (fst result)) = List.length (Index.expenses st)
              /\ Index.editingExpense (fst result) = None
              /\ forall i e, nth_error (Index.expenses st) i = Some e ->
                   nth_error (Index.expenses (fst result)) i
                   = Some (if String.eqb (Expense.id e) (Expense.id editing)
                           then spread e data else e))).
Proof.
  intros parseFloat numberToString now form st result data.
  unfold result, submitExpenseForm, ExpenseForm.handleSubmit.
  split.
  - intros [H|H]; rewrite H; simpl; [reflexivity|].
    now rewrite orb_true_r.
  - intros Ha Hc. apply String.eqb_neq in Ha. apply String.eqb_neq in Hc.
    rewrite Ha, Hc. simpl. split.
    + intros Hadd. rewrite Hadd. simpl. split; reflexivity.
    + intros editing Hedit. rewrite Hedit. simpl.
      split; [apply length_map|]. split; [reflexivity|].
      intros i e Hnth. rewrite nth_error_map, Hnth. reflexivity.
Qed.

Lemma transaction_form_submit_witness :
  let a := sampleExpense "a" 50 "1" (DateFns.mkDate 2024 3 10) expense in
  let form := ExpenseForm.mk EmptyString "1" "tea" (DateFns.mkDate 2024 3 12) expense in
  let st := Index.mk [a] true None in
  submitExpenseForm parseDecimal (fun _ => EmptyString) 1710000000000%Z form st = (st, []).
Proof.
  intros a form st.
  apply (proj1 (transaction_form_submit parseDecimal (fun _ => EmptyString)
                  1710000000000%Z form st)).
  left. reflexivity.
Defined.

(* ------------------------------------------------------------------ *)
(** ** Budgets under the initial filter *)
(* ------------------------------------------------------------------ *)

(** X18: with the filter the page starts with (the current month, nothing
    else restricted), a monthly budget shows the whole spending of its
    category in the current month, whatever the transactions; a weekly
    budget need not show the whole spending of the current week: on Friday
    2024-03-01 an expense of Tuesday 2024-02-27 is in the week but not
    counted. *)
Theorem monthly_budget_exact_under_initial_filter :
  (forall (now : Date) (es : list Expense.t) (budget : Budget.t),
     Budget.period budget = monthly ->
     displayedSpentAmount now es (initialFilters now) budget
     == sumWhere (countsFor now budget) es)
  /\ (let es := [sampleExpense "a" 25 "1" (DateFns.mkDate 2024 2 27) expense] in
      sumWhere (countsFor firstOfMarch foodWeekly) es == 25
      /\ displayedSpentAmount firstOfMarch es (initialFilters firstOfMarch) foodWeekly == 0).
Proof.
  split.
  - intros now es budget Hmonthly.
    unfold displayedSpentAmount, filteredExpenses.
    rewrite getSpentAmount_sumWhere, sumWhere_filter.
    apply sumWhere_ext. intros e _.
    destruct (countsFor now budget e) eqn:Hc; [|apply andb_false_r].
    rewrite andb_true_r.
    unfold countsFor, inWindow, budgetWindow in Hc. rewrite Hmonthly in Hc. simpl in Hc.
    apply andb_true_iff in Hc. destruct Hc as [_ Hwin].
    unfold filterPredicate, dateInRange, categoryMatch, amountMatch, typeMatch, newDate.
    simpl. rewrite Hwin. reflexivity.
  - split; reflexivity.
Qed.

Lemma monthly_budget_exact_under_initial_filter_witness :
  displayedSpentAmount midMarch marchFood (initialFilters midMarch) foodBudget
  == sumWhere (countsFor midMarch foodBudget) marchFood.
Proof.
  apply (proj1 monthly_budget_exact_under_initial_filter midMarch marchFood foodBudget).
  reflexivity.
Defined.

(* ------------------------------------------------------------------ *)
(** ** Calendar facts: the month and the week of a day *)
(* ------------------------------------------------------------------ *)

Section Calendar.
Import DateFns Gregorian.
Local Open Scope Z_scope.

Lemma yearOfEra_bounds doe :
  0 <= doe < 146097 ->
  0 <= yearOfEra doe <= 399
  /\ daysBeforeYear (yearOfEra doe) <= doe
  /\ (yearOfEra doe < 399 -> doe < daysBeforeYear (yearOfEra doe + 1)).
Proof.
  intros H. unfold yearOfEra, daysBeforeYear.
  repeat split; Z.to_euclidean_division_equations; lia.
Qed.

Lemma month_table doy :
  0 <= doy <= 365 ->
  let mp := (5 * doy + 2) / 153 in
  0 <= mp <= 11 /\ monthStart mp <= doy
  /\ (mp <= 10 -> doy < monthStart (mp + 1))
  /\ (mp <= 10 -> 30 <= monthStart (mp + 1) - monthStart mp <= 31)
  /\ monthStart 11 = 337.
Proof.
  intros H mp. unfold mp, monthStart.
  repeat split; try reflexivity; Z.to_euclidean_division_equations; lia.
Qed.

Lemma era_of_year (era yoe : Z) :
  0 <= yoe <= 399 -> (yoe + era * 400) / 400 = era.
Proof. intros H. rewrite Z.div_add by lia. rewrite Z.div_small by lia. lia. Qed.

(** March to December: the civil year is the year of the era. *)
Lemma days_from_civil_late (era yoe mp d : Z) :
  0 <= yoe <= 399 -> 0 <= mp <= 9 ->
  days_from_civil (yoe + era * 400) (mp + 3) d = eraStart era yoe + monthStart mp + d - 1.
Proof.
  intros Hy Hm. unfold days_from_civil, eraStart, daysBeforeYear, monthStart. cbv zeta.
  rewrite (proj2 (Z.leb_gt (mp + 3) 2)) by lia.
  rewrite (proj2 (Z.ltb_lt 2 (mp + 3))) by lia.
  rewrite era_of_year by exact Hy.
  replace (yoe + era * 400 - era * 400) with yoe by lia.
  replace (mp + 3 - 3) with mp by lia. lia.
Qed.

(** January and February belong to the previous year of the era. *)
Lemma days_from_civil_early (era yoe mp d : Z) :
  0 <= yoe <= 399 -> 10 <= mp <= 11 ->
  days_from_civil (yoe + era * 400 + 1) (mp - 9) d
  = eraStart era yoe + monthStart mp + d - 1.
Proof.
  intros Hy Hm. unfold days_from_civil, eraStart, daysBeforeYear, monthStart. cbv zeta.
  rewrite (proj2 (Z.leb_le (mp - 9) 2)) by lia.
  rewrite (proj2 (Z.ltb_ge 2 (mp - 9))) by lia.
  replace (yoe + era * 400 + 1 - 1) with (yoe + era * 400) by lia.
  rewrite era_of_year by exact Hy.
  replace (yoe + era * 400 - era * 400) with yoe by lia.
  replace (mp - 9 + 9) with mp by lia. lia.
Qed.

Lemma year_length (yoe : Z) :
  365 <= daysBeforeYear (yoe + 1) - daysBeforeYear yoe <= 366.
Proof. unfold daysBeforeYear. Z.to_euclidean_division_equations. lia. Qed.

Lemma next_year_start (era yoe : Z) :
  0 <= yoe <= 399 ->
  days_from_civil (yoe + era * 400 + 1) 3 1
  = if yoe <? 399 then eraStart era (yoe + 1) else eraStart (era + 1) 0.
Proof.
  intros Hy. destruct (Z.ltb_spec yoe 399).
  - replace (yoe + era * 400 + 1) with ((yoe + 1) + era * 400) by lia.
    change 3 with (0 + 3). rewrite days_from_civil_late by lia.
    change (monthStart 0) with 0. lia.
  - replace (yoe + era * 400 + 1) with (0 + (era + 1) * 400) by lia.
    change 3 with (0 + 3). rewrite days_from_civil_late by lia.
    change (monthStart 0) with 0. lia.
Qed.

(** The calendar day of a day number, from its era, year of era and day
    of year. *)
Lemma civil_parts (era yoe doy : Z) :
  0 <= yoe <= 399 -> 0 <= doy <= 365 ->
  (yoe < 399 -> daysBeforeYear yoe + doy < daysBeforeYear (yoe + 1)) ->
  (yoe = 399 -> daysBeforeYear yoe + doy < 146097) ->
  exists y m d,
    civilOfParts era yoe doy = (y, m, d)
    /\ days_from_civil y m d = eraStart era yoe + doy
    /\ days_from_civil y m 1 <= eraStart era yoe + doy < nextMonthStart y m
    /\ 28 <= nextMonthStart y m - days_from_civil y m 1 <= 31
    /\ 1 <= m <= 12 /\ 1 <= d <= 31.
Proof.
  intros Hy Hdoy Hyear Hlast.
  set (mp := (5 * doy + 2) / 153).
  set (d := doy - monthStart mp + 1).
  set (m := if mp <? 10 then mp + 3 else mp - 9).
  set (y := if m <=? 2 then yoe + era * 400 + 1 else yoe + era * 400).
  set (z := eraStart era yoe + doy).
  exists y, m, d. split; [reflexivity|].
  destruct (month_table doy Hdoy) as (Hmp & Hstart & Hnext & Hlen & H11).
  fold mp in Hmp, Hstart, Hnext, Hlen.
  pose proof (year_length yoe) as Hyl.
  assert (Hcase : mp <= 8 \/ mp = 9 \/ mp = 10 \/ mp = 11) by lia.
  clearbody mp. unfold nextMonthStart.
  destruct Hcase as [H8|[H9|[H10|Hfeb]]].
  - specialize (Hnext ltac:(lia)). specialize (Hlen ltac:(lia)).
    assert (Hm : m = mp + 3)
      by (unfold m; rewrite (proj2 (Z.ltb_lt mp 10)) by lia; reflexivity).
    assert (Hyv : y = yoe + era * 400)
      by (unfold y; rewrite Hm, (proj2 (Z.leb_gt (mp + 3) 2)) by lia; reflexivity).
    rewrite Hm, Hyv. rewrite (proj2 (Z.eqb_neq (mp + 3) 12)) by lia.
    replace (mp + 3 + 1) with ((mp + 1) + 3) by lia.
    rewrite !days_from_civil_late by lia. unfold z, d. repeat split; lia.
  - subst mp. specialize (Hnext ltac:(lia)). specialize (Hlen ltac:(lia)).
    change (9 + 1) with 10 in Hnext, Hlen.
    assert (Hm : m = 12) by reflexivity.
    assert (Hyv : y = yoe + era * 400) by (unfold y; rewrite Hm; reflexivity).
    rewrite Hm, Hyv. change (12 =? 12) with true. cbv iota.
    pose proof (days_from_civil_late era yoe 9 d Hy ltac:(lia)) as E1.
    pose proof (days_from_civil_late era yoe 9 1 Hy ltac:(lia)) as E2.
    pose proof (days_from_civil_early era yoe 10 1 Hy ltac:(lia)) as E3.
    change (9 + 3) with 12 in E1, E2. change (10 - 9) with 1 in E3.
    rewrite E1, E2, E3. unfold z, d. repeat split; lia.
  - subst mp. specialize (Hnext ltac:(lia)). specialize (Hlen ltac:(lia)).
    change (10 + 1) with 11 in Hnext, Hlen.
    assert (Hm : m = 1) by reflexivity.
    assert (Hyv : y = yoe + era * 400 + 1) by (unfold y; rewrite Hm; reflexivity).
    rewrite Hm, Hyv. change (1 =? 12) with false. cbv iota. change (1 + 1) with 2.
    pose proof (days_from_civil_early era yoe 10 d Hy ltac:(lia)) as E1.
    pose proof (days_from_civil_early era yoe 10 1 Hy ltac:(lia)) as E2.
    pose proof (days_from_civil_early era yoe 11 1 Hy ltac:(lia)) as E3.
    change (10 - 9) with 1 in E1, E2. change (11 - 9) with 2 in E3.
    rewrite E1, E2, E3. unfold z, d. repeat split; lia.
  - subst mp. clear Hnext Hlen.
    assert (Hm : m = 2) by reflexivity.
    assert (Hyv : y = yoe + era * 400 + 1) by (unfold y; rewrite Hm; reflexivity).
    rewrite Hm, Hyv. change (2 =? 12) with false. cbv iota. change (2 + 1) with 3.
    pose proof (days_from_civil_early era yoe 11 d Hy ltac:(lia)) as E1.
    pose proof (days_from_civil_early era yoe 11 1 Hy ltac:(lia)) as E2.
    change (11 - 9) with 2 in E1, E2.
    rewrite E1, E2, (next_year_start era yoe Hy). unfold z, d.
    destruct (Z.ltb_spec yoe 399) as [Hlt|Hge].
    + specialize (Hyear Hlt). unfold eraStart. repeat split; lia.
    + assert (Heq : yoe = 399) by lia. specialize (Hlast Heq).
      unfold eraStart. subst yoe.
      change (daysBeforeYear 0) with 0.
      change (daysBeforeYear 399) with 145731 in *. repeat split; lia.
Qed.

Lemma civil_from_days_month (z : Z) :
  exists y m d,
    civil_from_days z = (y, m, d)
    /\ days_from_civil y m d = z
    /\ days_from_civil y m 1 <= z < nextMonthStart y m
    /\ 28 <= nextMonthStart y m - days_from_civil y m 1 <= 31
    /\ 1 <= m <= 12 /\ 1 <= d <= 31.
Proof.
  set (era := (z + 719468) / 146097).
  set (doe := z + 719468 - era * 146097).
  assert (Hdoe : 0 <= doe < 146097).
  { unfold doe, era. Z.to_euclidean_division_equations. lia. }
  destruct (yearOfEra_bounds doe Hdoe) as (Hy & Hlo & Hhi).
  set (yoe := yearOfEra doe) in *.
  set (doy := doe - daysBeforeYear yoe).
  pose proof (year_length yoe) as Hyl.
  assert (Hyear : yoe < 399 -> daysBeforeYear yoe + doy < daysBeforeYear (yoe + 1))
    by (intros H; specialize (Hhi H); unfold doy; lia).
  assert (Hlast : yoe = 399 -> daysBeforeYear yoe + doy < 146097)
    by (intros _; unfold doy; lia).
  assert (Hdoy : 0 <= doy <= 365).
  { split; [unfold doy; lia|].
    destruct (Z.ltb_spec yoe 399) as [Hlt|Hge].
    - specialize (Hyear Hlt). lia.
    - assert (Heq : yoe = 399) by lia. specialize (Hlast Heq).
      rewrite Heq in Hlast. change (daysBeforeYear 399) with 145731 in Hlast. lia. }
  destruct (civil_parts era yoe doy Hy Hdoy Hyear Hlast) as (y & m & d & Hciv & H).
  assert (Hz : eraStart era yoe + doy = z) by (unfold eraStart, doy, doe; lia).
  rewrite Hz in H.
  exists y, m, d. split; [|exact H].
  rewrite <- Hciv. reflexivity.
Qed.

Lemma day_bounds (now : Date) :
  dayNumber now * DAY <= now < (dayNumber now + 1) * DAY.
Proof.
  unfold dayNumber, DAY. Z.to_euclidean_division_equations. lia.
Qed.

(** The month of [now] runs from a midnight to the last millisecond before
    another midnight, 28 to 31 days later, and holds the day of [now]. *)
Lemma month_window (now : Date) :
  exists first next,
    startOfMonth now = first * DAY
    /\ endOfMonth now = next * DAY - 1
    /\ first <= dayNumber now < next
    /\ 28 <= next - first <= 31.
Proof.
  destruct (civil_from_days_month (dayNumber now))
    as (y & m & d & Hciv & _ & Hrange & Hlen & _ & _).
  exists (days_from_civil y m 1), (nextMonthStart y m).
  unfold startOfMonth, endOfMonth. rewrite Hciv.
  split; [reflexivity|]. split; [|split; assumption].
  unfold nextMonthStart, mkDate. destruct (m =? 12); reflexivity.
Qed.

(** The week of [now] runs from the midnight of a Sunday to the last
    millisecond of the following Saturday, and holds the day of [now]. *)
Lemma week_window (now : Date) :
  exists first,
    startOfWeek now = first * DAY
    /\ endOfWeek now = (first + 7) * DAY - 1
    /\ first <= dayNumber now < first + 7
    /\ (first + 4) mod 7 = 0.
Proof.
  exists (dayNumber now - getDay now).
  unfold startOfWeek, endOfWeek, getDay.
  set (dn := dayNumber now).
  split; [reflexivity|]. split; [unfold DAY; lia|].
  split; Z.to_euclidean_division_equations; lia.
Qed.

End Calendar.

Lemma dayNumber_before_midnight (n : Z) :
  (DateFns.dayNumber (n * DateFns.DAY - 1) = n - 1)%Z.
Proof.
  unfold DateFns.dayNumber, DateFns.DAY. Z.to_euclidean_division_equations. lia.
Qed.

(** Appending a transaction adds its amount to the amount spent when the
    filter callback of [getSpentAmount] accepts it, and changes nothing
    otherwise. *)
Lemma getSpentAmount_snoc (now : Date) (es : list Expense.t) (e : Expense.t)
    (budget : Budget.t) :
  getSpentAmount now (es ++ [e]) budget
  = if countsFor now budget e
    then (getSpentAmount now es budget + Expense.amount e)%Q
    else getSpentAmount now es budget.
Proof.
  unfold getSpentAmount, countsFor, inWindow, isExpense, newDate.
  destruct (budgetWindow now budget) as [startDate endDate]. simpl fst. simpl snd.
  rewrite filter_app. simpl filter. rewrite <- !andb_assoc.
  destruct (ExpenseType_eqb (Expense.type e) expense
            && ((Expense.categoryId e =? Budget.categoryId budget)%string
                && ((startDate <=? Expense.date e)%Z && (Expense.date e <=? endDate)%Z))).
  - unfold JS.reduce_sum. rewrite fold_left_app. reflexivity.
  - now rewrite app_nil_r.
Qed.

(** X19: the window of a budget holds the present moment and starts at a
    midnight: it is the week that starts on Sunday and spans seven calendar
    days, or the month, spanning 28 to 31 calendar days; so an expense of
    the budget's category dated now adds its amount to the amount spent,
    and an expense dated outside the window adds nothing. *)
Theorem budget_window_holds_now :
  forall (now : Date) (budget : Budget.t),
    let window := budgetWindow now budget in
    (fst window <= now <= snd window)%Z
    /\ DateFns.startOfDay (fst window) = fst window
    /\ (Budget.period budget = weekly ->
        (DateFns.dayNumber (snd window) - DateFns.dayNumber (fst window) + 1 = 7)%Z
        /\ DateFns.getDay (fst window) = 0%Z)
    /\ (Budget.period budget = monthly ->
        (28 <= DateFns.dayNumber (snd window) - DateFns.dayNumber (fst window) + 1 <= 31)%Z)
    /\ (forall es e, Expense.date e = now -> Expense.type e = expense ->
                     Expense.categoryId e = Budget.categoryId budget ->
                     getSpentAmount now (es ++ [e]) budget
                     = (getSpentAmount now es budget + Expense.amount e)%Q)
    /\ (forall es e, (Expense.date e < fst window \/ snd window < Expense.date e)%Z ->
                     getSpentAmount now (es ++ [e]) budget = getSpentAmount now es budget).
Proof.
  intros now budget window.
  pose proof (day_bounds now) as Hday.
  assert (Hmain :
    (fst window <= now <= snd window)%Z
    /\ DateFns.startOfDay (fst window) = fst window
    /\ (Budget.period budget = weekly ->
        (DateFns.dayNumber (snd window) - DateFns.dayNumber (fst window) + 1 = 7)%Z
        /\ DateFns.getDay (fst window) = 0%Z)
    /\ (Budget.period budget = monthly ->
        (28 <= DateFns.dayNumber (snd window) - DateFns.dayNumber (fst window) + 1 <= 31)%Z)).
  { unfold window, budgetWindow. destruct (Budget.period budget); simpl.
    - destruct (week_window now) as (first & Hs & He & Hin & Hsun).
      rewrite Hs, He. unfold DateFns.startOfDay, DateFns.getDay.
      rewrite dayNumber_before_midnight, dayNumber_midnight.
      split; [unfold DateFns.DAY in *; lia|]. split; [reflexivity|].
      split; [intros _; split; [lia | exact Hsun] | discriminate].
    - destruct (month_window now) as (first & next & Hs & He & Hin & Hlen).
      rewrite Hs, He. unfold DateFns.startOfDay.
      rewrite dayNumber_before_midnight, dayNumber_midnight.
      split; [unfold DateFns.DAY in *; lia|]. split; [reflexivity|].
      split; [discriminate | intros _; lia]. }
  destruct Hmain as (Hin & Hmid & Hweek & Hmonth).
  split; [exact Hin|]. split; [exact Hmid|]. split; [exact Hweek|]. split; [exact Hmonth|].
  split.
  - intros es e Hdate Htype Hcat. rewrite getSpentAmount_snoc.
    assert (Hcounts : countsFor now budget e = true).
    { unfold countsFor, isExpense, inWindow. fold window.
      rewrite Htype, Hcat, String.eqb_refl, Hdate. simpl.
      apply andb_true_iff. split; apply Z.leb_le; apply Hin. }
    now rewrite Hcounts.
  - intros es e Hout. rewrite getSpentAmount_snoc.
    assert (Hcounts : countsFor now budget e = false).
    { unfold countsFor, inWindow. fold window.
      apply andb_false_iff. right. apply andb_false_iff.
      destruct Hout as [Hlo|Hhi]; [left | right]; apply Z.leb_gt; assumption. }
    now rewrite Hcounts.
Qed.

Lemma budget_window_holds_now_witness :
  getSpentAmount midMarch (marchFood ++ [sampleExpense "n" 12 "1" midMarch expense])
    foodBudget
  = (getSpentAmount midMarch marchFood foodBudget + 12)%Q.
Proof.
  apply (budget_window_holds_now midMarch foodBudget); reflexivity.
Defined.

(** X20: the filter the page starts with holds the present moment and
    spans a whole month: a transaction dated now passes it, and the daily
    series drawn under it has between 28 and 31 points. *)
Theorem initial_filter_spans_current_month :
  forall (now : Date) (es : list Expense.t),
    let f := initialFilters now in
    (FilterOptions.startDate f <= now <= FilterOptions.endDate f)%Z
    /\ (forall e, Expense.date e = now -> filterPredicate f e = true)
    /\ (28 <= List.length (chartDailyData es f) <= 31)%nat.
Proof.
  intros now es f.
  pose proof (day_bounds now) as Hday.
  destruct (month_window now) as (first & next & Hs & He & Hin & Hlen).
  assert (Hrange : (FilterOptions.startDate f <= now <= FilterOptions.endDate f)%Z).
  { simpl. rewrite Hs, He. unfold DateFns.DAY in *. lia. }
  split; [exact Hrange|]. split.
  - intros e Hdate. destruct Hrange as [Hlo Hhi].
    apply Z.leb_le in Hlo, Hhi.
    unfold filterPredicate, dateInRange, categoryMatch, amountMatch, typeMatch, newDate.
    rewrite Hdate, Hlo, Hhi. reflexivity.
  - unfold chartDailyData, getDailyData.
    rewrite eachDayOfInterval_days by lia.
    rewrite !length_map, length_seq. simpl FilterOptions.startDate.
    simpl FilterOptions.endDate. rewrite Hs, He, dayNumber_midnight.
    assert (Hlast : DateFns.dayNumber (next * DateFns.DAY - 1)%Z = (next - 1)%Z).
    { unfold DateFns.dayNumber, DateFns.DAY. Z.to_euclidean_division_equations. lia. }
    rewrite Hlast. lia.
Qed.

Lemma initial_filter_spans_current_month_witness :
  filterPredicate (initialFilters midMarch)
    (sampleExpense "n" 12 "1" midMarch expense) = true.
Proof.
  apply (proj1 (proj2 (initial_filter_spans_current_month midMarch []))).
  reflexivity.
Defined.
